(** * Lunar lander simulation core: Entity/Lander, Physics and Game

    A shallow embedding of [src/lunar-lander-3d/src/core/Physics.cpp]
    (which also holds the [Entity] and [Lander] implementations) and of the
    [Game] implementation ([src/unnamed/part_001]).

    Single-precision [float] quantities are modelled by exact rationals [Q];
    the comparisons [<], [<=], [!=] and the [std::min]/[std::max] calls are
    written out as the C++ library defines them.  The terrain (whose
    implementation, Terrain.cpp, is not part of the sources) is an abstract
    oracle answering the four queries the physics makes of it. *)

From Stdlib Require Import QArith Qabs Qround Lqa Bool.
From Stdlib Require Import ZArith Lia List.
Import ListNotations.

Open Scope Q_scope.

(** ** Float helpers *)

(** [a < b] on floats. *)
Definition qlt (a b : Q) : bool := negb (Qle_bool b a).

(** [a <= b] on floats. *)
Definition qle (a b : Q) : bool := Qle_bool a b.

(** [std::max(a, b)]: [(a < b) ? b : a]. *)
Definition std_max (a b : Q) : Q := if qlt a b then b else a.

(** [std::min(a, b)]: [(b < a) ? b : a]. *)
Definition std_min (a b : Q) : Q := if qlt b a then b else a.

(** [float[3]] arrays: position, rotation, velocity, acceleration. *)
Record V3 := mkV3 { c0 : Q; c1 : Q; c2 : Q }.

Definition zero3 : V3 := mkV3 0 0 0.

(** ** Entity / Lander *)

Record Lander := mkLander {
  mPosition : V3;
  mRotation : V3;
  mVelocity : V3;
  mAcceleration : V3;
  mActive : bool;
  mWidth : Q;
  mHeight : Q;
  mDepth : Q;
  mMass : Q;
  mThrustLevel : Q;
  mThrustActive : bool;
  mMaxThrustForce : Q;
  mFuel : Q;
  mMaxFuel : Q;
  mFuelConsumptionRate : Q;
  mLanded : bool;
  mCrashed : bool
}.

(** [Lander::Lander()] (the [Entity] base zeroes position and rotation). *)
Definition Lander_new : Lander := {|
  mPosition := zero3; mRotation := zero3;
  mVelocity := zero3; mAcceleration := zero3;
  mActive := true;
  mWidth := 20; mHeight := 30; mDepth := 20; mMass := 10000;
  mThrustLevel := 0; mThrustActive := false; mMaxThrustForce := 50000;
  mFuel := 1000; mMaxFuel := 1000; mFuelConsumptionRate := 10;
  mLanded := false; mCrashed := false |}.

(** Field updates, in the order of the record. *)
Definition set_position (p : V3) (l : Lander) : Lander :=
  {| mPosition := p; mRotation := mRotation l; mVelocity := mVelocity l;
     mAcceleration := mAcceleration l; mActive := mActive l;
     mWidth := mWidth l; mHeight := mHeight l; mDepth := mDepth l;
     mMass := mMass l; mThrustLevel := mThrustLevel l;
     mThrustActive := mThrustActive l; mMaxThrustForce := mMaxThrustForce l;
     mFuel := mFuel l; mMaxFuel := mMaxFuel l;
     mFuelConsumptionRate := mFuelConsumptionRate l;
     mLanded := mLanded l; mCrashed := mCrashed l |}.

Definition set_rotation (r : V3) (l : Lander) : Lander :=
  {| mPosition := mPosition l; mRotation := r; mVelocity := mVelocity l;
     mAcceleration := mAcceleration l; mActive := mActive l;
     mWidth := mWidth l; mHeight := mHeight l; mDepth := mDepth l;
     mMass := mMass l; mThrustLevel := mThrustLevel l;
     mThrustActive := mThrustActive l; mMaxThrustForce := mMaxThrustForce l;
     mFuel := mFuel l; mMaxFuel := mMaxFuel l;
     mFuelConsumptionRate := mFuelConsumptionRate l;
     mLanded := mLanded l; mCrashed := mCrashed l |}.

Definition set_velocity (v : V3) (l : Lander) : Lander :=
  {| mPosition := mPosition l; mRotation := mRotation l; mVelocity := v;
     mAcceleration := mAcceleration l; mActive := mActive l;
     mWidth := mWidth l; mHeight := mHeight l; mDepth := mDepth l;
     mMass := mMass l; mThrustLevel := mThrustLevel l;
     mThrustActive := mThrustActive l; mMaxThrustForce := mMaxThrustForce l;
     mFuel := mFuel l; mMaxFuel := mMaxFuel l;
     mFuelConsumptionRate := mFuelConsumptionRate l;
     mLanded := mLanded l; mCrashed := mCrashed l |}.

Definition set_thrust (level : Q) (act : bool) (l : Lander) : Lander :=
  {| mPosition := mPosition l; mRotation := mRotation l; mVelocity := mVelocity l;
     mAcceleration := mAcceleration l; mActive := mActive l;
     mWidth := mWidth l; mHeight := mHeight l; mDepth := mDepth l;
     mMass := mMass l; mThrustLevel := level;
     mThrustActive := act; mMaxThrustForce := mMaxThrustForce l;
     mFuel := mFuel l; mMaxFuel := mMaxFuel l;
     mFuelConsumptionRate := mFuelConsumptionRate l;
     mLanded := mLanded l; mCrashed := mCrashed l |}.

Definition set_fuel (f : Q) (l : Lander) : Lander :=
  {| mPosition := mPosition l; mRotation := mRotation l; mVelocity := mVelocity l;
     mAcceleration := mAcceleration l; mActive := mActive l;
     mWidth := mWidth l; mHeight := mHeight l; mDepth := mDepth l;
     mMass := mMass l; mThrustLevel := mThrustLevel l;
     mThrustActive := mThrustActive l; mMaxThrustForce := mMaxThrustForce l;
     mFuel := f; mMaxFuel := mMaxFuel l;
     mFuelConsumptionRate := mFuelConsumptionRate l;
     mLanded := mLanded l; mCrashed := mCrashed l |}.

Definition set_flags (landed crashed : bool) (l : Lander) : Lander :=
  {| mPosition := mPosition l; mRotation := mRotation l; mVelocity := mVelocity l;
     mAcceleration := mAcceleration l; mActive := mActive l;
     mWidth := mWidth l; mHeight := mHeight l; mDepth := mDepth l;
     mMass := mMass l; mThrustLevel := mThrustLevel l;
     mThrustActive := mThrustActive l; mMaxThrustForce := mMaxThrustForce l;
     mFuel := mFuel l; mMaxFuel := mMaxFuel l;
     mFuelConsumptionRate := mFuelConsumptionRate l;
     mLanded := landed; mCrashed := crashed |}.

Definition set_acceleration (a : V3) (l : Lander) : Lander :=
  {| mPosition := mPosition l; mRotation := mRotation l; mVelocity := mVelocity l;
     mAcceleration := a; mActive := mActive l;
     mWidth := mWidth l; mHeight := mHeight l; mDepth := mDepth l;
     mMass := mMass l; mThrustLevel := mThrustLevel l;
     mThrustActive := mThrustActive l; mMaxThrustForce := mMaxThrustForce l;
     mFuel := mFuel l; mMaxFuel := mMaxFuel l;
     mFuelConsumptionRate := mFuelConsumptionRate l;
     mLanded := mLanded l; mCrashed := mCrashed l |}.

Definition set_active (b : bool) (l : Lander) : Lander :=
  {| mPosition := mPosition l; mRotation := mRotation l; mVelocity := mVelocity l;
     mAcceleration := mAcceleration l; mActive := b;
     mWidth := mWidth l; mHeight := mHeight l; mDepth := mDepth l;
     mMass := mMass l; mThrustLevel := mThrustLevel l;
     mThrustActive := mThrustActive l; mMaxThrustForce := mMaxThrustForce l;
     mFuel := mFuel l; mMaxFuel := mMaxFuel l;
     mFuelConsumptionRate := mFuelConsumptionRate l;
     mLanded := mLanded l; mCrashed := mCrashed l |}.

(** [Lander::SetLanded(true)] / [Lander::SetCrashed(true)]. *)
Definition SetLanded (l : Lander) : Lander := set_flags true (mCrashed l) l.
Definition SetCrashed (l : Lander) : Lander := set_flags (mLanded l) true l.

Definition IsLanded (l : Lander) : bool := mLanded l.
Definition IsCrashed (l : Lander) : bool := mCrashed l.

(** The two-argument [Entity::SetPosition(x, y)] used by the 2D code takes
    its [z] from a default argument declared in Entity.h, which is not among
    the sources.  Every definition below is generic in the [z] it writes,
    given as a function of the previous [z] (a constant for a default
    argument, the identity for an overload that keeps [z]). *)
Section Simulation.

Variable setpos2_z : Q -> Q.

(** [sin], [cos] (of radians) and [M_PI], used only by 3D thrust. *)
Variables fsin fcos : Q -> Q.
Variable M_PI : Q.

Definition SetPosition3 (x y z : Q) (l : Lander) : Lander :=
  set_position (mkV3 x y z) l.

Definition SetPosition2 (x y : Q) (l : Lander) : Lander :=
  set_position (mkV3 x y (setpos2_z (c2 (mPosition l)))) l.

(** [Lander::Update(deltaTime)]. *)
Definition Lander_Update (dt : Q) (l : Lander) : Lander :=
  let p := mPosition l in
  let v := mVelocity l in
  let l1 := set_position (mkV3 (c0 p + c0 v * dt) (c1 p + c1 v * dt)
                               (c2 p + c2 v * dt)) l in
  if mThrustActive l1 && qlt 0 (mFuel l1) then
    let f1 := mFuel l1 - mFuelConsumptionRate l1 * mThrustLevel l1 * dt in
    let f2 := std_max 0 f1 in
    let l2 := set_fuel f2 l1 in
    if qle f2 0 then set_thrust (mThrustLevel l2) false l2 else l2
  else l1.

(** [Lander::ApplyThrust(amount)]. *)
Definition Lander_ApplyThrust (amount : Q) (l : Lander) : Lander :=
  if qle (mFuel l) 0 then set_thrust 0 false l
  else
    let level := std_max 0 (std_min 1 amount) in
    set_thrust level (qlt 0 level) l.

(** The [while] loops of [RotateLeft] / [RotateRight]; each runs
    [floor(r / 360)] (resp. [-floor(r / 360)]) times, which bounds the
    recursion. *)
Fixpoint wrap_down (n : nat) (r : Q) : Q :=
  match n with
  | O => r
  | S n' => if qle 360 r then wrap_down n' (r - 360) else r
  end.

Fixpoint wrap_up (n : nat) (r : Q) : Q :=
  match n with
  | O => r
  | S n' => if qlt r 0 then wrap_up n' (r + 360) else r
  end.

Definition RotateLeft (amount : Q) (l : Lander) : Lander :=
  let r := mRotation l in
  let r2 := c2 r + amount in
  set_rotation (mkV3 (c0 r) (c1 r)
                  (wrap_down (S (Z.to_nat (Qfloor (r2 / 360)))) r2)) l.

Definition RotateRight (amount : Q) (l : Lander) : Lander :=
  let r := mRotation l in
  let r2 := c2 r - amount in
  set_rotation (mkV3 (c0 r) (c1 r)
                  (wrap_up (S (Z.to_nat (- Qfloor (r2 / 360)))) r2)) l.

(** [Lander::Reset()]. *)
Definition Lander_Reset (l : Lander) : Lander :=
  let l1 := SetPosition3 0 100 0 l in
  let l2 := set_rotation zero3 l1 in
  let l3 := set_acceleration zero3 (set_velocity zero3 l2) in
  let l4 := set_thrust 0 false l3 in
  let l5 := set_fuel (mMaxFuel l4) l4 in
  set_flags false false l5.

(** ** Terrain oracle

    The four queries of [Terrain] used by the physics.  [CheckCollision*]
    returns [Some h] when it reports a collision and writes [h] to its
    [collisionHeight] out-parameter, [None] when it returns false. *)
Record Terrain := mkTerrain {
  CheckCollision2D : Lander -> option Q;
  IsValidLanding2D : Lander -> bool;
  CheckCollision3D : Lander -> option Q;
  IsValidLanding3D : Lander -> bool
}.

(** ** Physics *)

Record Physics := mkPhysics {
  mGravity : Q;
  mAirDensity : Q;
  m3DMode : bool;
  mTimeScale : Q
}.

(** [Physics::Physics()]. *)
Definition Physics_new : Physics :=
  {| mGravity := 162 # 100; mAirDensity := 0; m3DMode := false;
     mTimeScale := 1 |}.

Definition SetGravity (g : Q) (ph : Physics) : Physics :=
  {| mGravity := g; mAirDensity := mAirDensity ph; m3DMode := m3DMode ph;
     mTimeScale := mTimeScale ph |}.

Definition stopped (l : Lander) : bool := IsLanded l || IsCrashed l.

(** [Physics::ApplyGravity]. *)
Definition ApplyGravity (ph : Physics) (dt : Q) (l : Lander) : Lander :=
  if stopped l then l
  else
    let v := mVelocity l in
    set_velocity (mkV3 (c0 v) (c1 v + mGravity ph * dt * (1031 # 100)) (c2 v)) l.

(** [Physics::ApplyThrust]. *)
Definition ApplyThrust (ph : Physics) (dt : Q) (l : Lander) : Lander :=
  if stopped l || negb (mThrustActive l) then l
  else
    let thrustForce := (25 # 10) * mGravity ph * mThrustLevel l in
    let v := mVelocity l in
    let r := mRotation l in
    if negb (m3DMode ph) then
      set_velocity (mkV3 (c0 v) (c1 v - thrustForce * dt) (c2 v)) l
    else
      let rotX := c0 r * M_PI / 180 in
      let rotZ := c2 r * M_PI / 180 in
      let thrustX := fsin rotZ * thrustForce in
      let thrustY := fcos rotZ * thrustForce in
      let thrustZ := fsin rotX * thrustForce in
      set_velocity (mkV3 (c0 v - thrustX * dt) (c1 v - thrustY * dt)
                         (c2 v - thrustZ * dt)) l.

(** One iteration of the drag loop on a single velocity component. *)
Definition drag_component (ph : Physics) (dt area mass speed : Q) : Q :=
  let dragCoefficient := 1 # 2 in
  let dragForce := (1 # 2) * mAirDensity ph * speed * Qabs speed
                   * dragCoefficient * area in
  if negb (Qeq_bool speed 0) then speed - dragForce * dt / mass else speed.

(** [Physics::ApplyDrag]: the loop runs over 2 components in 2D, 3 in 3D. *)
Definition ApplyDrag (ph : Physics) (dt : Q) (l : Lander) : Lander :=
  if stopped l || qle (mAirDensity ph) 0 then l
  else
    let area := mWidth l * mHeight l in
    let d := drag_component ph dt area (mMass l) in
    let v := mVelocity l in
    set_velocity (mkV3 (d (c0 v)) (d (c1 v))
                       (if m3DMode ph then d (c2 v) else c2 v)) l.

Definition apply_forces (ph : Physics) (dt : Q) (l : Lander) : Lander :=
  ApplyDrag ph dt (ApplyThrust ph dt (ApplyGravity ph dt l)).

(** [Physics::CheckCollisions2D]; the boolean is its return value. *)
Definition CheckCollisions2D (t : Terrain) (l : Lander) : bool * Lander :=
  if stopped l then (false, l)
  else
    match CheckCollision2D t l with
    | Some collisionHeight =>
        let p := mPosition l in
        let l1 := SetPosition2 (c0 p) (collisionHeight - mHeight l / 2) l in
        if IsValidLanding2D t l1 then
          let l2 := SetLanded l1 in
          let v := mVelocity l2 in
          (true, set_velocity (mkV3 0 0 (c2 v)) l2)
        else
          let l2 := SetCrashed l1 in
          let v := mVelocity l2 in
          (true, set_velocity (mkV3 0 0 (c2 v)) l2)
    | None => (false, l)
    end.

(** [Physics::CheckCollisions3D]. *)
Definition CheckCollisions3D (t : Terrain) (l : Lander) : bool * Lander :=
  if stopped l then (false, l)
  else
    match CheckCollision3D t l with
    | Some collisionHeight =>
        let p := mPosition l in
        let l1 := SetPosition3 (c0 p) (collisionHeight - mHeight l / 2) (c2 p) l in
        if IsValidLanding3D t l1 then
          (true, set_velocity zero3 (SetLanded l1))
        else
          (true, set_velocity zero3 (SetCrashed l1))
    | None => (false, l)
    end.

(** [Physics::Update2D]: forces with the scaled step, positions with the
    unscaled one.  The lander and terrain are always registered in the game. *)
Definition Update2D (ph : Physics) (t : Terrain) (dt : Q) (l : Lander) : Lander :=
  let scaledDeltaTime := dt * mTimeScale ph in
  let l1 := apply_forces ph scaledDeltaTime l in
  let l2 :=
    if negb (IsLanded l1) && negb (IsCrashed l1) then
      let v := mVelocity l1 in
      let p := mPosition l1 in
      SetPosition2 (c0 p + c0 v * dt) (c1 p + c1 v * dt) l1
    else l1 in
  snd (CheckCollisions2D t l2).

(** [Physics::Update3D]. *)
Definition Update3D (ph : Physics) (t : Terrain) (dt : Q) (l : Lander) : Lander :=
  let l1 := apply_forces ph dt l in
  let l2 :=
    if negb (IsLanded l1) && negb (IsCrashed l1) then
      let v := mVelocity l1 in
      let p := mPosition l1 in
      SetPosition3 (c0 p + c0 v * dt) (c1 p + c1 v * dt) (c2 p + c2 v * dt) l1
    else l1 in
  snd (CheckCollisions3D t l2).

(** [Physics::Update]. *)
Definition Physics_Update (ph : Physics) (t : Terrain) (dt : Q) (l : Lander) : Lander :=
  if m3DMode ph then Update3D ph t dt l else Update2D ph t dt l.

(** [Physics::CheckCollisions]. *)
Definition CheckCollisions (ph : Physics) (t : Terrain) (l : Lander) : bool * Lander :=
  if m3DMode ph then CheckCollisions3D t l else CheckCollisions2D t l.

(** ** Game *)

Inductive GameState := READY | FLYING | LANDED | CRASHED.
Inductive Difficulty := EASY | NORMAL | HARD.

Record Game := mkGame {
  mGameState : GameState;
  mDifficulty : Difficulty;
  g3DMode : bool;
  mScore : Q;
  mElapsedTime : Q;
  mFuelUsed : Q;
  mWindowWidth : Z;
  mWindowHeight : Z;
  mIsRunning : bool;
  mLander : Lander;
  mTerrain : Terrain;
  mPhysics : Physics
}.

(** Whether the build defines [USE_OPENGL] (CMake does when OpenGL is found). *)
Variable USE_OPENGL : bool.

(** [int / int] in C++ truncates towards zero; the result is then converted
    to [float] for [SetPosition]. *)
Definition idiv (a b : Z) : Q := inject_Z (Z.quot a b).

(** [Game::Reset()]; [t] is the terrain [Generate2D]/[Generate3D] produces
    (a random regeneration). *)
Definition Game_Reset (t : Terrain) (g : Game) : Game :=
  let l1 := set_active true (Lander_Reset (mLander g)) in
  let l2 :=
    if g3DMode g then
      SetPosition3 (idiv (mWindowWidth g) 2) (idiv (mWindowHeight g) 3)
                   (idiv (mWindowWidth g) 2) l1
    else SetPosition2 (idiv (mWindowWidth g) 2) 100 l1 in
  {| mGameState := FLYING; mDifficulty := mDifficulty g; g3DMode := g3DMode g;
     mScore := 0; mElapsedTime := 0; mFuelUsed := 0;
     mWindowWidth := mWindowWidth g; mWindowHeight := mWindowHeight g;
     mIsRunning := mIsRunning g; mLander := l2; mTerrain := t;
     mPhysics := mPhysics g |}.

Definition with_lander (l : Lander) (g : Game) : Game :=
  {| mGameState := mGameState g; mDifficulty := mDifficulty g;
     g3DMode := g3DMode g; mScore := mScore g; mElapsedTime := mElapsedTime g;
     mFuelUsed := mFuelUsed g; mWindowWidth := mWindowWidth g;
     mWindowHeight := mWindowHeight g; mIsRunning := mIsRunning g;
     mLander := l; mTerrain := mTerrain g; mPhysics := mPhysics g |}.

Definition with_state (s : GameState) (g : Game) : Game :=
  {| mGameState := s; mDifficulty := mDifficulty g;
     g3DMode := g3DMode g; mScore := mScore g; mElapsedTime := mElapsedTime g;
     mFuelUsed := mFuelUsed g; mWindowWidth := mWindowWidth g;
     mWindowHeight := mWindowHeight g; mIsRunning := mIsRunning g;
     mLander := mLander g; mTerrain := mTerrain g; mPhysics := mPhysics g |}.

Definition with_running (b : bool) (g : Game) : Game :=
  {| mGameState := mGameState g; mDifficulty := mDifficulty g;
     g3DMode := g3DMode g; mScore := mScore g; mElapsedTime := mElapsedTime g;
     mFuelUsed := mFuelUsed g; mWindowWidth := mWindowWidth g;
     mWindowHeight := mWindowHeight g; mIsRunning := b;
     mLander := mLander g; mTerrain := mTerrain g; mPhysics := mPhysics g |}.

Definition with_fuel_used (f : Q) (g : Game) : Game :=
  {| mGameState := mGameState g; mDifficulty := mDifficulty g;
     g3DMode := g3DMode g; mScore := mScore g; mElapsedTime := mElapsedTime g;
     mFuelUsed := f; mWindowWidth := mWindowWidth g;
     mWindowHeight := mWindowHeight g; mIsRunning := mIsRunning g;
     mLander := mLander g; mTerrain := mTerrain g; mPhysics := mPhysics g |}.

(** [Game::Game()], with the rendering mode a [SetRenderingMode] call made
    before [Initialize] may have chosen.  The lander, terrain and physics do
    not exist yet; [Game_Initialize] creates them. *)
Definition Game_new (use3D : bool) (t : Terrain) : Game :=
  {| mGameState := READY; mDifficulty := NORMAL; g3DMode := use3D;
     mScore := 0; mElapsedTime := 0; mFuelUsed := 0;
     mWindowWidth := 800; mWindowHeight := 600; mIsRunning := false;
     mLander := Lander_new; mTerrain := t; mPhysics := Physics_new |}.

(** [Game::Initialize()] when the renderer initialises ([t] is the terrain
    the final [Reset] generates). *)
Definition Game_Initialize (t : Terrain) (g : Game) : Game :=
  let use3D := if g3DMode g then USE_OPENGL else false in
  let g1 := {| mGameState := mGameState g; mDifficulty := mDifficulty g;
               g3DMode := use3D; mScore := mScore g;
               mElapsedTime := mElapsedTime g; mFuelUsed := mFuelUsed g;
               mWindowWidth := 800; mWindowHeight := 600;
               mIsRunning := mIsRunning g; mLander := Lander_new;
               mTerrain := t; mPhysics := Physics_new |} in
  with_running true (Game_Reset t g1).

(** [Game::Shutdown()] (the components are recreated by [Initialize]). *)
Definition Game_Shutdown (g : Game) : Game := with_running false g.

(** The state of the input handler for one frame. *)
Record Input := mkInput {
  IsStartActive : bool;
  IsThrustActive : bool;
  IsRotateLeftActive : bool;
  IsRotateRightActive : bool;
  IsResetActive : bool;
  IsQuitActive : bool
}.

(** [Game::ProcessInput()]. *)
Definition Game_ProcessInput (inp : Input) (t : Terrain) (g : Game) : Game :=
  let g1 :=
    match mGameState g with
    | READY => if IsStartActive inp then with_state FLYING g else g
    | FLYING =>
        let ga :=
          if IsThrustActive inp then
            let gt := with_lander (Lander_ApplyThrust 1 (mLander g)) g in
            let originalFuel := mFuel (mLander gt) in
            let newFuel := originalFuel in
            if qlt newFuel originalFuel
            then with_fuel_used (mFuelUsed gt + (originalFuel - newFuel)) gt
            else gt
          else with_lander (Lander_ApplyThrust 0 (mLander g)) g in
        let gb := if IsRotateLeftActive inp
                  then with_lander (RotateLeft 2 (mLander ga)) ga else ga in
        if IsRotateRightActive inp
        then with_lander (RotateRight 2 (mLander gb)) gb else gb
    | LANDED | CRASHED => if IsResetActive inp then Game_Reset t g else g
    end in
  if IsQuitActive inp then with_running false g1 else g1.

(** [Game::Update(deltaTime)].  The fall-timer block only prints, the
    terrain's [Update] leaves the geometry alone and the camera calls only
    touch the renderer, so they change none of the modelled state. *)
Definition Game_Update (dt : Q) (g : Game) : Game :=
  match mGameState g with
  | FLYING =>
      let l1 := Physics_Update (mPhysics g) (mTerrain g) dt (mLander g) in
      let l2 := Lander_Update dt l1 in
      let '(st, score) :=
        if IsLanded l2 then (LANDED, (mFuel l2 / mMaxFuel l2) * 1000)
        else if IsCrashed l2 then (CRASHED, 0)
        else (FLYING, mScore g) in
      {| mGameState := st; mDifficulty := mDifficulty g;
         g3DMode := g3DMode g; mScore := score;
         mElapsedTime := mElapsedTime g + dt;
         mFuelUsed := mFuelUsed g; mWindowWidth := mWindowWidth g;
         mWindowHeight := mWindowHeight g; mIsRunning := mIsRunning g;
         mLander := l2; mTerrain := mTerrain g; mPhysics := mPhysics g |}
  | _ => g
  end.

(** [Game::SetDifficulty(difficulty)]. *)
Definition Game_SetDifficulty (d : Difficulty) (t : Terrain) (g : Game) : Game :=
  let grav := match d with EASY => 1 | NORMAL => 162 # 100 | HARD => 2 end in
  let g1 := {| mGameState := mGameState g; mDifficulty := d;
               g3DMode := g3DMode g; mScore := mScore g;
               mElapsedTime := mElapsedTime g; mFuelUsed := mFuelUsed g;
               mWindowWidth := mWindowWidth g; mWindowHeight := mWindowHeight g;
               mIsRunning := mIsRunning g;
               mLander := Lander_ApplyThrust 0 (mLander g);
               mTerrain := mTerrain g;
               mPhysics := SetGravity grav (mPhysics g) |} in
  Game_Reset t g1.

(** [Game::SetRenderingMode(use3D)]. *)
Definition Game_SetRenderingMode (use3D : bool) (t : Terrain) (g : Game) : Game :=
  if Bool.eqb (g3DMode g) use3D then g
  else
    let g1 := {| mGameState := mGameState g; mDifficulty := mDifficulty g;
                 g3DMode := use3D; mScore := mScore g;
                 mElapsedTime := mElapsedTime g; mFuelUsed := mFuelUsed g;
                 mWindowWidth := mWindowWidth g;
                 mWindowHeight := mWindowHeight g;
                 mIsRunning := mIsRunning g; mLander := mLander g;
                 mTerrain := mTerrain g; mPhysics := mPhysics g |} in
    if mIsRunning g1 then Game_Initialize t (Game_Shutdown g1) else g1.

Inductive Key := KeyR | KeyEscape | Key1 | Key2 | Key3 | KeyTab | KeyOther.

(** [Game::OnKeyDown(keyCode)]. *)
Definition Game_OnKeyDown (k : Key) (t : Terrain) (g : Game) : Game :=
  match k with
  | KeyR => Game_Reset t g
  | KeyEscape => with_running false g
  | Key1 => Game_SetDifficulty EASY t g
  | Key2 => Game_SetDifficulty NORMAL t g
  | Key3 => Game_SetDifficulty HARD t g
  | KeyTab => Game_SetRenderingMode (negb (g3DMode g)) t g
  | KeyOther => g
  end.

(** The frame loop of [Game::Run] ([deltaTime] in [0, 0.1] after the cap)
    and the key callbacks. *)
Inductive game_step : Game -> Game -> Prop :=
  | step_input g inp t : game_step g (Game_ProcessInput inp t g)
  | step_update g dt : 0 <= dt -> dt <= 1 # 10 -> game_step g (Game_Update dt g)
  | step_key g k t : game_step g (Game_OnKeyDown k t g).

(** States reachable from a successful [Game::Initialize]. *)
Inductive reachable : Game -> Prop :=
  | reach_init b t0 t : reachable (Game_Initialize t (Game_new b t0))
  | reach_step g g' : reachable g -> game_step g g' -> reachable g'.

End Simulation.

(** ** Invariants of the reachable states *)

(** What every reachable lander satisfies: the physics never writes a [z]
    velocity in 2D, a landed or crashed lander is at rest, the two outcome
    flags exclude each other, and the thrust and fuel bookkeeping stays in
    range. *)
Definition lander_ok (l : Lander) : Prop :=
  c2 (mVelocity l) = 0 /\
  (mLanded l = true \/ mCrashed l = true -> mVelocity l = zero3) /\
  ~ (mLanded l = true /\ mCrashed l = true) /\
  0 <= mThrustLevel l /\ mThrustLevel l <= 1 /\
  mFuelConsumptionRate l = 10 /\ mMaxFuel l = 1000 /\
  0 <= mFuel l /\ (mThrustActive l = true -> 0 < mFuel l).

(** The game never switches its [Physics] to 3D mode (each [Initialize]
    builds a fresh one in 2D mode) and never writes [mFuelUsed] but to 0. *)
Definition game_ok (g : Game) : Prop :=
  lander_ok (mLander g) /\ m3DMode (mPhysics g) = false /\ mFuelUsed g = 0.

(** ** Sample inputs *)

(** A [z] default of 0 for [SetPosition(x, y)], placeholder trigonometry
    and a build without OpenGL. *)
Definition sample_z (_ : Q) : Q := 0.
Definition sample_sin (_ : Q) : Q := 0.
Definition sample_cos (_ : Q) : Q := 1.
Definition sample_pi : Q := 314159 # 100000.

(** A terrain that never reports a collision, and one that reports a
    landing pad at height 500 everywhere. *)
Definition open_sky : Terrain :=
  mkTerrain (fun _ => None) (fun _ => false) (fun _ => None) (fun _ => false).

Definition flat_pad : Terrain :=
  mkTerrain (fun _ => Some 500) (fun _ => true) (fun _ => Some 500)
            (fun _ => true).

(** The game right after [Initialize] in 2D mode. *)
Definition start_game (t : Terrain) : Game :=
  Game_Initialize sample_z false t (Game_new false t).

Definition crashed_lander : Lander := set_flags false true Lander_new.

(** ** Game loop timing *)

(** [deltaTime] as [Game::Run] computes it from two [SDL_GetTicks()]
    readings: the [unsigned int] difference (modulo 2^32), in seconds,
    capped at 0.1. *)
Definition Run_deltaTime (currentTime lastFrameTime : Z) : Q :=
  let deltaTime := inject_Z ((currentTime - lastFrameTime) mod 2 ^ 32) / 1000 in
  if qlt (1 # 10) deltaTime then 1 # 10 else deltaTime.

(** ** Invariants of the physics parameters and of the game record *)

(** The physics of the game: vacuum, unit time scale, 2D mode and one of
    the three gravities [SetDifficulty] chooses from. *)
Definition physics_ok (ph : Physics) : Prop :=
  mAirDensity ph = 0 /\ mTimeScale ph = 1 /\ m3DMode ph = false /\
  (mGravity ph = 1 \/ mGravity ph = 162 # 100 \/ mGravity ph = 2).

(** A rotation about [z] only, normalised to [0, 360). *)
Definition rotation_ok (r : V3) : Prop :=
  c0 r = 0 /\ c1 r = 0 /\ 0 <= c2 r /\ c2 r < 360.

(** Physics and rotation as above; never back to READY; score in
    [0, 1000]; elapsed time non-negative; fuel at most 1000. *)
Definition flight_ok (g : Game) : Prop :=
  physics_ok (mPhysics g) /\ rotation_ok (mRotation (mLander g)) /\
  mGameState g <> READY /\
  0 <= mScore g /\ mScore g <= 1000 /\ 0 <= mElapsedTime g /\
  mFuel (mLander g) <= 1000.


(** ** Renderer2D

    The part of [Renderer2D] (in Physics.cpp) that decides what is drawn.
    SDL calls are the draw commands the renderer issues; the results of
    [SDL_Init], [SDL_CreateWindow] and [SDL_CreateRenderer] are inputs. *)

(** [Lander::GetHeight()]. *)
Definition Lander_GetHeight (l : Lander) : Q := mHeight l.

(** [static_cast<int>] of a float: truncation towards zero. *)
Definition to_int (q : Q) : Z := Z.quot (Qnum q) (Zpos (Qden q)).

(** A filled rectangle or a line, with its RGBA colour. *)
Inductive Draw :=
  | FillRect (x y w h : Z) (r g b a : Z)
  | Line (x1 y1 x2 y2 : Z) (r g b a : Z).

(** [TerrainSegment] (Terrain.h). *)
Record TerrainSegment := mkTerrainSegment {
  x1 : Q; y1 : Q; x2 : Q; y2 : Q;
  isLandingPad : bool
}.

Module Renderer2D.

Record Renderer2D := mkRenderer2D {
  mWindow : bool;      (* mWindow != nullptr *)
  mRenderer : bool;    (* mRenderer != nullptr *)
  mWidth : Z;
  mHeight : Z;
  mInitialized : bool;
  mPixelsPerMeter : Q
}.

(** [Renderer2D::Renderer2D()]. *)
Definition Renderer2D_new : Renderer2D :=
  {| mWindow := false; mRenderer := false; mWidth := 800; mHeight := 600;
     mInitialized := false; mPixelsPerMeter := 20 |}.

Definition with_size (w h : Z) (rd : Renderer2D) : Renderer2D :=
  {| mWindow := mWindow rd; mRenderer := mRenderer rd; mWidth := w;
     mHeight := h; mInitialized := mInitialized rd;
     mPixelsPerMeter := mPixelsPerMeter rd |}.

Definition with_window (b : bool) (rd : Renderer2D) : Renderer2D :=
  {| mWindow := b; mRenderer := mRenderer rd; mWidth := mWidth rd;
     mHeight := mHeight rd; mInitialized := mInitialized rd;
     mPixelsPerMeter := mPixelsPerMeter rd |}.

Definition with_renderer (b : bool) (rd : Renderer2D) : Renderer2D :=
  {| mWindow := mWindow rd; mRenderer := b; mWidth := mWidth rd;
     mHeight := mHeight rd; mInitialized := mInitialized rd;
     mPixelsPerMeter := mPixelsPerMeter rd |}.

Definition with_initialized (b : bool) (rd : Renderer2D) : Renderer2D :=
  {| mWindow := mWindow rd; mRenderer := mRenderer rd; mWidth := mWidth rd;
     mHeight := mHeight rd; mInitialized := b;
     mPixelsPerMeter := mPixelsPerMeter rd |}.

(** [Renderer2D::Initialize(width, height, title)]; [sdl_ok], [window_ok]
    and [renderer_ok] say whether [SDL_Init] returned 0 and whether
    [SDL_CreateWindow] and [SDL_CreateRenderer] returned non-null. *)
Definition Initialize (sdl_ok window_ok renderer_ok : bool) (width height : Z)
    (rd : Renderer2D) : bool * Renderer2D :=
  let rd1 := with_size width height rd in
  if negb sdl_ok then (false, rd1)
  else
    let rd2 := with_window window_ok rd1 in
    if negb window_ok then (false, rd2)
    else
      let rd3 := with_renderer renderer_ok rd2 in
      if negb renderer_ok then (false, rd3)
      else (true, with_initialized true rd3).

(** [Renderer2D::Shutdown()]. *)
Definition Shutdown (rd : Renderer2D) : Renderer2D :=
  with_initialized false (with_window false (with_renderer false rd)).

Section Drawing.

(** The alpha [DrawRect] uses when a call gives none (its default argument
    is declared in Renderer2D.h, which is not among the sources). *)
Variable default_alpha : Z.

(** [Renderer2D::DrawRect]. *)
Definition DrawRect (rd : Renderer2D) (x y width height : Q) (r g b a : Z)
    : list Draw :=
  if negb (mInitialized rd) then []
  else [FillRect (to_int x) (to_int y) (to_int width) (to_int height) r g b a].

(** [Renderer2D::RenderTelemetry(game)] (the game and its lander exist). *)
Definition RenderTelemetry (rd : Renderer2D) (game : Game) : list Draw :=
  if negb (mInitialized rd) then []
  else
    let lander := mLander game in
    let position := mPosition lander in
    let velocity := mVelocity lander in
    let fuel := mFuel lander in
    let maxFuel := mMaxFuel lander in
    let bg := DrawRect rd 10 10 200 100 50 50 50 200 in
    let altitude := inject_Z (mHeight rd - 50)
                    - (c1 position + Lander_GetHeight lander / 2) in
    let maxAltitude := inject_Z (mHeight rd - 150) in
    let altitudePct := altitude / maxAltitude in
    let alt := DrawRect rd 20 20 (inject_Z (to_int (altitudePct * 180))) 20
                 0 255 0 default_alpha in
    let velocityPct0 := Qabs (c1 velocity) / (2 * 3 / mPixelsPerMeter rd) in
    let velocityPct := if qlt 1 velocityPct0 then 1 else velocityPct0 in
    let vel :=
      if qle (c1 velocity) 0
      then DrawRect rd 20 50 (inject_Z (to_int (velocityPct * 180))) 20
             0 0 255 default_alpha
      else DrawRect rd 20 50 (inject_Z (to_int (velocityPct * 180))) 20
             255 0 0 default_alpha in
    let fuelPct := fuel / maxFuel in
    let fuelBar := DrawRect rd 20 80 (inject_Z (to_int (fuelPct * 180))) 20
                     255 255 0 default_alpha in
    bg ++ alt ++ vel ++ fuelBar.

(** [Renderer2D::RenderGameState(game)]. *)
Definition RenderGameState (rd : Renderer2D) (game : Game) : list Draw :=
  if negb (mInitialized rd) then []
  else
    let x := inject_Z (Z.quot (mWidth rd) 2 - 100) in
    let y := inject_Z (Z.quot (mHeight rd) 2) in
    match mGameState game with
    | READY => DrawRect rd x y 200 30 255 255 255 default_alpha
    | LANDED => DrawRect rd x y 200 30 0 255 0 default_alpha
    | CRASHED => DrawRect rd x y 200 30 255 0 0 default_alpha
    | FLYING => []
    end.

(** [Renderer2D::DrawLine]. *)
Definition DrawLine (rd : Renderer2D) (xa ya xb yb : Q) (r g b a : Z)
    : list Draw :=
  if negb (mInitialized rd) then []
  else [Line (to_int xa) (to_int ya) (to_int xb) (to_int yb) r g b a].

(** [Renderer2D::RenderTerrain(terrain)] (the terrain exists), given the
    segments [GetSegments2D()] returns. *)
Definition RenderTerrain (rd : Renderer2D) (segments : list TerrainSegment)
    : list Draw :=
  if negb (mInitialized rd) then []
  else
    flat_map (fun segment =>
      if isLandingPad segment
      then DrawLine rd (x1 segment) (y1 segment) (x2 segment) (y2 segment)
             0 255 0 default_alpha
      else DrawLine rd (x1 segment) (y1 segment) (x2 segment) (y2 segment)
             200 200 200 default_alpha) segments.

(** [Renderer2D::RenderLander(lander)] (the lander exists).  The lander's
    own size is read and then overridden by 40 x 60 before drawing. *)
Definition RenderLander (rd : Renderer2D) (lander : Lander) : list Draw :=
  if negb (mInitialized rd) then []
  else
    let position := mPosition lander in
    let width := 40 in
    let height := 60 in
    DrawRect rd (c0 position - width / 2) (c1 position - height / 2)
      width height 255 0 0 default_alpha ++
    (if mThrustActive lander
     then DrawRect rd (c0 position - width / 4) (c1 position + height / 2)
            (width / 2) (height / 3) 255 165 0 default_alpha
     else []).

End Drawing.

End Renderer2D.

(** Whether a draw command is a green line. *)
Definition green_line (d : Draw) : bool :=
  match d with
  | Line _ _ _ _ r g b _ => Z.eqb r 0 && Z.eqb g 255 && Z.eqb b 0
  | FillRect _ _ _ _ _ _ _ _ => false
  end.

(** * Properties *)

Section Properties.

Variable setpos2_z : Q -> Q.
Variables fsin fcos : Q -> Q.
Variable M_PI : Q.
Variable USE_OPENGL : bool.

Local Abbreviation CC2 := (CheckCollisions2D setpos2_z).
Local Abbreviation CC3 := CheckCollisions3D.
Local Abbreviation PUpdate := (Physics_Update setpos2_z fsin fcos M_PI).
Local Abbreviation U2 := (Update2D setpos2_z fsin fcos M_PI).
Local Abbreviation U3 := (Update3D fsin fcos M_PI).
Local Abbreviation GUpdate := (Game_Update setpos2_z fsin fcos M_PI).
Local Abbreviation GReset := (Game_Reset setpos2_z).
Local Abbreviation Reach := (reachable setpos2_z fsin fcos M_PI USE_OPENGL).

Ltac break_ifs :=
  repeat match goal with
         | |- context [if ?c then _ else _] =>
             let E := fresh "E" in destruct c eqn:E
         | H : context [if ?c then _ else _] |- _ =>
             let E := fresh "E" in destruct c eqn:E
         end.

Lemma qlt_spec a b : qlt a b = true <-> a < b.
Proof.
  unfold qlt. rewrite negb_true_iff.
  split; intro H.
  - apply Qnot_le_lt. intro H'. apply Qle_bool_iff in H'. congruence.
  - destruct (Qle_bool b a) eqn:E; auto.
    apply Qle_bool_iff in E. exfalso. apply (Qlt_not_le _ _ H E).
Qed.

Lemma qlt_false a b : qlt a b = false <-> b <= a.
Proof.
  unfold qlt. rewrite negb_false_iff. apply Qle_bool_iff.
Qed.

Lemma qle_spec a b : qle a b = true <-> a <= b.
Proof. apply Qle_bool_iff. Qed.

Lemma qle_false a b : qle a b = false <-> b < a.
Proof.
  split; intro H.
  - apply Qnot_le_lt. intro H'. apply Qle_bool_iff in H'. unfold qle in H.
    congruence.
  - destruct (qle a b) eqn:E; auto.
    apply qle_spec in E. exfalso. apply (Qlt_not_le _ _ H E).
Qed.

Lemma std_max_ge_l a b : a <= std_max a b.
Proof.
  unfold std_max. destruct (qlt a b) eqn:E.
  - apply qlt_spec in E. lra.
  - lra.
Qed.

Lemma std_max_ge_r a b : b <= std_max a b.
Proof.
  unfold std_max. destruct (qlt a b) eqn:E.
  - lra.
  - apply qlt_false in E. exact E.
Qed.

Lemma set_velocity_self l : set_velocity (mVelocity l) l = l.
Proof. destruct l; reflexivity. Qed.

(** Each force replaces the velocity and nothing else; in 2D none of them
    touches the [z] component. *)
Lemma ApplyGravity_shape ph dt l :
  exists v, ApplyGravity ph dt l = set_velocity v l /\ c2 v = c2 (mVelocity l).
Proof.
  unfold ApplyGravity. destruct (stopped l).
  - exists (mVelocity l). now rewrite set_velocity_self.
  - eexists. split; reflexivity.
Qed.

Lemma ApplyThrust_shape ph dt l :
  exists v, ApplyThrust fsin fcos M_PI ph dt l = set_velocity v l /\
            (m3DMode ph = false -> c2 v = c2 (mVelocity l)).
Proof.
  unfold ApplyThrust. destruct (stopped l || negb (mThrustActive l)).
  - exists (mVelocity l). now rewrite set_velocity_self.
  - destruct (m3DMode ph) eqn:E; simpl.
    + eexists. split; [reflexivity | discriminate].
    + eexists. split; reflexivity.
Qed.

Lemma ApplyDrag_shape ph dt l :
  exists v, ApplyDrag ph dt l = set_velocity v l /\
            (m3DMode ph = false -> c2 v = c2 (mVelocity l)).
Proof.
  unfold ApplyDrag. destruct (stopped l || qle (mAirDensity ph) 0).
  - exists (mVelocity l). now rewrite set_velocity_self.
  - eexists. split; [reflexivity|]. simpl. intro E. now rewrite E.
Qed.

Lemma apply_forces_shape ph dt l :
  exists v, apply_forces fsin fcos M_PI ph dt l = set_velocity v l /\
            (m3DMode ph = false -> c2 v = c2 (mVelocity l)).
Proof.
  unfold apply_forces.
  destruct (ApplyGravity_shape ph dt l) as [v1 [E1 H1]]. rewrite E1.
  destruct (ApplyThrust_shape ph dt (set_velocity v1 l)) as [v2 [E2 H2]].
  rewrite E2.
  destruct (ApplyDrag_shape ph dt (set_velocity v2 (set_velocity v1 l)))
    as [v3 [E3 H3]].
  rewrite E3. exists v3. split; [reflexivity|].
  intro H. rewrite H3 by exact H. simpl. rewrite H2 by exact H. simpl.
  exact H1.
Qed.

Lemma ApplyGravity_stopped ph dt l :
  stopped l = true -> ApplyGravity ph dt l = l.
Proof. intro H. unfold ApplyGravity. now rewrite H. Qed.

Lemma ApplyThrust_stopped ph dt l :
  stopped l = true -> ApplyThrust fsin fcos M_PI ph dt l = l.
Proof. intro H. unfold ApplyThrust. now rewrite H. Qed.

Lemma ApplyDrag_stopped ph dt l :
  stopped l = true -> ApplyDrag ph dt l = l.
Proof. intro H. unfold ApplyDrag. now rewrite H. Qed.

Lemma apply_forces_stopped ph dt l :
  stopped l = true -> apply_forces fsin fcos M_PI ph dt l = l.
Proof.
  intro H. unfold apply_forces.
  rewrite ApplyGravity_stopped, ApplyThrust_stopped, ApplyDrag_stopped;
    auto.
Qed.

Lemma std_min_le_l a b : std_min a b <= a.
Proof.
  unfold std_min. destruct (qlt b a) eqn:E.
  - apply qlt_spec in E. lra.
  - lra.
Qed.

Lemma std_max_cases a b : std_max a b = a \/ std_max a b = b.
Proof. unfold std_max. destruct (qlt a b); auto. Qed.

Lemma stopped_false l :
  stopped l = false <-> mLanded l = false /\ mCrashed l = false.
Proof. unfold stopped, IsLanded, IsCrashed. now rewrite orb_false_iff. Qed.

(** [Update2D] on a lander still in flight: forces with the scaled step,
    one Euler step with the unscaled one, then the collision check. *)
Lemma Update2D_flying ph t dt l :
  stopped l = false ->
  let l1 := apply_forces fsin fcos M_PI ph (dt * mTimeScale ph) l in
  U2 ph t dt l =
  snd (CC2 t (SetPosition2 setpos2_z
                (c0 (mPosition l1) + c0 (mVelocity l1) * dt)
                (c1 (mPosition l1) + c1 (mVelocity l1) * dt) l1)).
Proof.
  intros H l1. apply stopped_false in H as [HL HC].
  unfold Update2D. fold l1.
  destruct (apply_forces_shape ph (dt * mTimeScale ph) l) as [v [E _]].
  subst l1. rewrite E. simpl. unfold IsLanded, IsCrashed. simpl.
  now rewrite HL, HC.
Qed.

Lemma Update3D_flying ph t dt l :
  stopped l = false ->
  let l1 := apply_forces fsin fcos M_PI ph dt l in
  U3 ph t dt l =
  snd (CC3 t (SetPosition3 (c0 (mPosition l1) + c0 (mVelocity l1) * dt)
                (c1 (mPosition l1) + c1 (mVelocity l1) * dt)
                (c2 (mPosition l1) + c2 (mVelocity l1) * dt) l1)).
Proof.
  intros H l1. apply stopped_false in H as [HL HC].
  unfold Update3D. fold l1.
  destruct (apply_forces_shape ph dt l) as [v [E _]].
  subst l1. rewrite E. simpl. unfold IsLanded, IsCrashed. simpl.
  now rewrite HL, HC.
Qed.

(** A stopped lander goes through a physics step untouched. *)
Lemma CC2_stopped t l : stopped l = true -> CC2 t l = (false, l).
Proof. intro H. unfold CheckCollisions2D. now rewrite H. Qed.

Lemma CC3_stopped t l : stopped l = true -> CC3 t l = (false, l).
Proof. intro H. unfold CheckCollisions3D. now rewrite H. Qed.

Lemma Physics_Update_stopped ph t dt l :
  stopped l = true -> PUpdate ph t dt l = l.
Proof.
  intro H. unfold Physics_Update, Update2D, Update3D.
  assert (HL : negb (IsLanded l) && negb (IsCrashed l) = false).
  { unfold stopped in H. destruct (IsLanded l), (IsCrashed l);
      simpl in *; congruence. }
  destruct (m3DMode ph); rewrite apply_forces_stopped by exact H;
    rewrite HL; [rewrite CC3_stopped | rewrite CC2_stopped]; auto.
Qed.

Lemma Lander_Update_fields dt l :
  let l' := Lander_Update dt l in
  mVelocity l' = mVelocity l /\ mLanded l' = mLanded l /\
  mCrashed l' = mCrashed l /\ mThrustLevel l' = mThrustLevel l /\
  mMaxFuel l' = mMaxFuel l /\ mFuelConsumptionRate l' = mFuelConsumptionRate l.
Proof.
  unfold Lander_Update. simpl. break_ifs; simpl; repeat split.
Qed.

Lemma Lander_Update_ok dt l : lander_ok l -> lander_ok (Lander_Update dt l).
Proof.
  intros (H0 & H1 & H2 & H3 & H4 & H5 & H6 & H7 & H8).
  unfold Lander_Update. simpl.
  destruct (mThrustActive l && qlt 0 (mFuel l)) eqn:E.
  - pose proof (std_max_ge_l 0 (mFuel l - mFuelConsumptionRate l * mThrustLevel l * dt)) as Hm.
    destruct (qle (std_max 0 (mFuel l - mFuelConsumptionRate l * mThrustLevel l * dt)) 0) eqn:E2.
    + unfold lander_ok; simpl. repeat split; auto; discriminate.
    + apply qle_false in E2.
      unfold lander_ok; simpl. repeat split; auto.
  - unfold lander_ok; simpl. repeat split; auto.
Qed.

Lemma Lander_ApplyThrust_ok a l : lander_ok l -> lander_ok (Lander_ApplyThrust a l).
Proof.
  intros (H0 & H1 & H2 & H3 & H4 & H5 & H6 & H7 & H8).
  unfold Lander_ApplyThrust.
  destruct (qle (mFuel l) 0) eqn:E.
  - unfold lander_ok; simpl. repeat split; auto; try lra; try discriminate.
  - apply qle_false in E.
    pose proof (std_max_ge_l 0 (std_min 1 a)).
    pose proof (std_min_le_l 1 a).
    assert (std_max 0 (std_min 1 a) <= 1)
      by (destruct (std_max_cases 0 (std_min 1 a)) as [-> | ->]; lra).
    unfold lander_ok; simpl. repeat split; auto.
Qed.

Lemma RotateLeft_ok a l : lander_ok l -> lander_ok (RotateLeft a l).
Proof. intro H. exact H. Qed.

Lemma RotateRight_ok a l : lander_ok l -> lander_ok (RotateRight a l).
Proof. intro H. exact H. Qed.

Lemma SetPosition2_ok x y l : lander_ok l -> lander_ok (SetPosition2 setpos2_z x y l).
Proof. intro H. exact H. Qed.

Lemma SetPosition3_ok x y z l : lander_ok l -> lander_ok (SetPosition3 x y z l).
Proof. intro H. exact H. Qed.

Lemma Lander_Reset_ok l :
  mMaxFuel l = 1000 -> mFuelConsumptionRate l = 10 ->
  lander_ok (set_active true (Lander_Reset l)).
Proof.
  intros HM HR. unfold lander_ok; simpl. rewrite HM, HR.
  repeat split; try lra; try discriminate.
Qed.

(** The 2D collision check keeps the invariant: it sets one flag at most and
    zeroes [x] and [y] velocity, the [z] velocity being zero already. *)
Lemma CC2_ok t l : lander_ok l -> lander_ok (snd (CC2 t l)).
Proof.
  intros HO. unfold CheckCollisions2D.
  destruct (stopped l) eqn:ES; [exact HO|].
  apply stopped_false in ES as [HL HC].
  destruct HO as (H0 & H1 & H2 & H3 & H4 & H5 & H6 & H7 & H8).
  destruct (CheckCollision2D t l) as [h|]; simpl.
  - destruct (IsValidLanding2D t _); unfold lander_ok; simpl;
      rewrite ?HL, ?HC, ?H0; repeat split; auto;
      intros [? ?]; discriminate.
  - repeat split; auto.
Qed.

Lemma Update2D_ok ph t dt l :
  m3DMode ph = false -> lander_ok l -> lander_ok (U2 ph t dt l).
Proof.
  intros H3D HO. destruct (stopped l) eqn:ES.
  - unfold Physics_Update in *.
    pose proof (Physics_Update_stopped ph t dt l ES) as E.
    unfold Physics_Update in E. rewrite H3D in E. rewrite E. exact HO.
  - rewrite Update2D_flying by exact ES.
    apply CC2_ok, SetPosition2_ok.
    destruct (apply_forces_shape ph (dt * mTimeScale ph) l) as [v [E Hv]].
    rewrite E. specialize (Hv H3D).
    apply stopped_false in ES as [HL HC].
    destruct HO as (H0 & H1 & H2 & H3 & H4 & H5 & H6 & H7 & H8).
    unfold lander_ok; simpl. rewrite Hv, HL, HC.
    repeat split; auto; try (intros [? | ?]; discriminate); try (intros [? ?]; discriminate).
Qed.

Lemma qlt_irrefl a : qlt a a = false.
Proof. apply qlt_false. apply Qle_refl. Qed.

Lemma Game_Reset_ok t g :
  lander_ok (mLander g) -> m3DMode (mPhysics g) = false -> game_ok (GReset t g).
Proof.
  intros HO H3D. destruct HO as (_ & _ & _ & _ & _ & HR & HM & _).
  unfold game_ok, Game_Reset. simpl. split; [|split; auto].
  destruct (g3DMode g);
    [apply SetPosition3_ok | apply SetPosition2_ok];
    apply Lander_Reset_ok; auto.
Qed.

Lemma Game_Initialize_ok t g :
  game_ok (Game_Initialize setpos2_z USE_OPENGL t g).
Proof.
  unfold Game_Initialize. apply Game_Reset_ok; simpl; [|reflexivity].
  unfold lander_ok; simpl. repeat split; try lra; try discriminate.
Qed.

Lemma Game_ProcessInput_ok inp t g :
  game_ok g -> game_ok (Game_ProcessInput setpos2_z inp t g).
Proof.
  intros [HO [H3D HF]]. unfold Game_ProcessInput.
  assert (Hq : forall g', game_ok g' -> game_ok (with_running false g'))
    by (intros g' H'; exact H').
  assert (Hg1 : game_ok
    (match mGameState g with
     | READY => if IsStartActive inp then with_state FLYING g else g
     | FLYING =>
         let ga :=
           if IsThrustActive inp then
             let gt := with_lander (Lander_ApplyThrust 1 (mLander g)) g in
             let originalFuel := mFuel (mLander gt) in
             let newFuel := originalFuel in
             if qlt newFuel originalFuel
             then with_fuel_used (mFuelUsed gt + (originalFuel - newFuel)) gt
             else gt
           else with_lander (Lander_ApplyThrust 0 (mLander g)) g in
         let gb := if IsRotateLeftActive inp
                   then with_lander (RotateLeft 2 (mLander ga)) ga else ga in
         if IsRotateRightActive inp
         then with_lander (RotateRight 2 (mLander gb)) gb else gb
     | LANDED | CRASHED => if IsResetActive inp then GReset t g else g
     end)).
  { destruct (mGameState g).
    - destruct (IsStartActive inp); split; auto.
    - cbv zeta. rewrite qlt_irrefl.
      destruct (IsThrustActive inp), (IsRotateLeftActive inp),
        (IsRotateRightActive inp);
        unfold game_ok; simpl; repeat split; auto;
        repeat first [ apply RotateRight_ok | apply RotateLeft_ok
                     | apply Lander_ApplyThrust_ok ]; exact HO.
    - destruct (IsResetActive inp); [apply Game_Reset_ok; auto | split; auto].
    - destruct (IsResetActive inp); [apply Game_Reset_ok; auto | split; auto]. }
  destruct (IsQuitActive inp); [apply Hq|]; exact Hg1.
Qed.

Lemma Game_Update_ok dt g : game_ok g -> game_ok (GUpdate dt g).
Proof.
  intros [HO [H3D HF]]. unfold Game_Update.
  destruct (mGameState g); try (split; auto; fail).
  assert (HU : lander_ok (Lander_Update dt (PUpdate (mPhysics g) (mTerrain g) dt (mLander g)))).
  { apply Lander_Update_ok. unfold Physics_Update. rewrite H3D.
    apply Update2D_ok; auto. }
  destruct (IsLanded (Lander_Update dt (PUpdate (mPhysics g) (mTerrain g) dt (mLander g)))),
    (IsCrashed (Lander_Update dt (PUpdate (mPhysics g) (mTerrain g) dt (mLander g))));
    unfold game_ok; simpl; auto.
Qed.

Lemma Game_OnKeyDown_ok k t g :
  game_ok g -> game_ok (Game_OnKeyDown setpos2_z USE_OPENGL k t g).
Proof.
  intros HG. pose proof HG as [HO [H3D HF]].
  destruct k; simpl.
  - apply Game_Reset_ok; auto.
  - exact HG.
  - apply Game_Reset_ok; simpl; auto. apply Lander_ApplyThrust_ok; auto.
  - apply Game_Reset_ok; simpl; auto. apply Lander_ApplyThrust_ok; auto.
  - apply Game_Reset_ok; simpl; auto. apply Lander_ApplyThrust_ok; auto.
  - unfold Game_SetRenderingMode.
    destruct (Bool.eqb _ _); [exact HG|].
    destruct (mIsRunning g); simpl;
      [apply Game_Initialize_ok | split; auto].
  - exact HG.
Qed.

(** Every reachable game state satisfies [game_ok]. *)
Lemma reachable_ok g : Reach g -> game_ok g.
Proof.
  induction 1 as [b t0 t | g g' _ IH Hs].
  - apply Game_Initialize_ok.
  - destruct Hs.
    + apply Game_ProcessInput_ok; auto.
    + apply Game_Update_ok; auto.
    + apply Game_OnKeyDown_ok; auto.
Qed.

(** Without an outcome the collision checks leave the lander as it is. *)
Lemma CC2_no_outcome t l :
  stopped (snd (CC2 t l)) = false -> snd (CC2 t l) = l.
Proof.
  unfold CheckCollisions2D. destruct (stopped l) eqn:ES; [reflexivity|].
  destruct (CheckCollision2D t l); [|reflexivity].
  destruct (IsValidLanding2D t _); simpl; unfold stopped, IsLanded, IsCrashed;
    simpl; rewrite ?orb_true_r; discriminate.
Qed.

Lemma CC3_no_outcome t l :
  stopped (snd (CC3 t l)) = false -> snd (CC3 t l) = l.
Proof.
  unfold CheckCollisions3D. destruct (stopped l) eqn:ES; [reflexivity|].
  destruct (CheckCollision3D t l); [|reflexivity].
  destruct (IsValidLanding3D t _); simpl; unfold stopped, IsLanded, IsCrashed;
    simpl; rewrite ?orb_true_r; discriminate.
Qed.

Lemma Game_Reset_window t g :
  mWindowWidth (GReset t g) = mWindowWidth g /\
  mWindowHeight (GReset t g) = mWindowHeight g.
Proof. split; reflexivity. Qed.

(** The window is 800 x 600 in every reachable state. *)
Lemma reachable_window g :
  Reach g -> mWindowWidth g = 800%Z /\ mWindowHeight g = 600%Z.
Proof.
  induction 1 as [b t0 t | g g' _ IH Hs]; [split; reflexivity|].
  destruct IH as [HW HH]. destruct Hs as [g inp t | g dt _ _ | g k t].
  - unfold Game_ProcessInput.
    destruct (mGameState g), (IsStartActive inp), (IsThrustActive inp),
      (IsRotateLeftActive inp), (IsRotateRightActive inp),
      (IsResetActive inp), (IsQuitActive inp); simpl;
      rewrite ?qlt_irrefl; simpl; auto.
  - unfold Game_Update. destruct (mGameState g); simpl; auto.
    break_ifs; simpl; auto.
  - destruct k; simpl; auto.
    unfold Game_SetRenderingMode. destruct (Bool.eqb _ _); auto.
    destruct (mIsRunning g); simpl; auto.
Qed.

(** ** C1: landing-outcome state machine *)

(** C1. From a lander that has neither landed nor crashed, the 2D and the
    3D collision checks set the landed flag exactly when the terrain reports
    a collision and [IsValidLanding] (asked about the lander after the
    snap) holds, set the crashed flag exactly when it reports one and
    [IsValidLanding] fails, and change nothing when no collision is
    reported; and no reachable state has both flags set. *)
Theorem CheckCollisions_outcome t l :
  IsLanded l = false -> IsCrashed l = false ->
  (let l' := snd (CC2 t l) in
   match CheckCollision2D t l with
   | Some h =>
       let valid := IsValidLanding2D t
         (SetPosition2 setpos2_z (c0 (mPosition l)) (h - mHeight l / 2) l) in
       IsLanded l' = valid /\ IsCrashed l' = negb valid
   | None => l' = l
   end) /\
  (let l' := snd (CC3 t l) in
   match CheckCollision3D t l with
   | Some h =>
       let valid := IsValidLanding3D t
         (SetPosition3 (c0 (mPosition l)) (h - mHeight l / 2)
                       (c2 (mPosition l)) l) in
       IsLanded l' = valid /\ IsCrashed l' = negb valid
   | None => l' = l
   end) /\
  (forall g, Reach g ->
     ~ (IsLanded (mLander g) = true /\ IsCrashed (mLander g) = true)).
Proof.
  intros HL HC.
  assert (ES : stopped l = false) by (apply stopped_false; auto).
  split; [|split].
  - unfold CheckCollisions2D. rewrite ES.
    destruct (CheckCollision2D t l) as [h|]; [|reflexivity].
    destruct (IsValidLanding2D t _); simpl; unfold IsLanded, IsCrashed in *;
      simpl; auto.
  - unfold CheckCollisions3D. rewrite ES.
    destruct (CheckCollision3D t l) as [h|]; [|reflexivity].
    destruct (IsValidLanding3D t _); simpl; unfold IsLanded, IsCrashed in *;
      simpl; auto.
  - intros g Hr. destruct (reachable_ok g Hr) as [(_ & _ & H2 & _) _].
    exact H2.
Qed.

(** ** C2: a landed or crashed lander is at rest *)

(** C2. In every reachable state where the lander has landed or crashed,
    its velocity is exactly zero; [Physics::Update] (2D or 3D, whatever the
    parameters, terrain and step) leaves such a lander entirely unchanged,
    so the velocity stays zero; and [Game::Reset] clears both flags. *)
Theorem stopped_velocity_frozen :
  (forall g, Reach g ->
     IsLanded (mLander g) = true \/ IsCrashed (mLander g) = true ->
     mVelocity (mLander g) = zero3) /\
  (forall ph t dt l, IsLanded l = true \/ IsCrashed l = true ->
     PUpdate ph t dt l = l /\ mVelocity (PUpdate ph t dt l) = mVelocity l) /\
  (forall t g, IsLanded (mLander (GReset t g)) = false /\
               IsCrashed (mLander (GReset t g)) = false).
Proof.
  split; [|split].
  - intros g Hr. destruct (reachable_ok g Hr) as [(_ & H1 & _) _]. exact H1.
  - intros ph t dt l H.
    assert (ES : stopped l = true)
      by (unfold stopped; destruct H as [-> | ->]; auto using orb_true_r).
    rewrite Physics_Update_stopped by exact ES. auto.
  - intros t g. unfold Game_Reset.
    destruct (g3DMode g); split; reflexivity.
Qed.

(** ** C8: collision snap *)

(** C8. When the terrain reports a collision at height [h] for a lander in
    flight, the collision check puts the lander's centre at [h - height/2]
    (its lower edge, at [y + height/2] since [y] grows downwards in the
    physics, lands on [h]) and leaves [x] (and in 3D [z]) unchanged. *)
Theorem collision_snap t l h :
  stopped l = false ->
  (CheckCollision2D t l = Some h ->
   let l' := snd (CC2 t l) in
   c1 (mPosition l') = h - mHeight l / 2 /\
   c1 (mPosition l') + mHeight l' / 2 == h /\
   c0 (mPosition l') = c0 (mPosition l)) /\
  (CheckCollision3D t l = Some h ->
   let l' := snd (CC3 t l) in
   c1 (mPosition l') = h - mHeight l / 2 /\
   c1 (mPosition l') + mHeight l' / 2 == h /\
   c0 (mPosition l') = c0 (mPosition l) /\
   c2 (mPosition l') = c2 (mPosition l)).
Proof.
  intros ES. split; intros HC.
  - unfold CheckCollisions2D. rewrite ES, HC.
    destruct (IsValidLanding2D t _); simpl; repeat split; ring.
  - unfold CheckCollisions3D. rewrite ES, HC.
    destruct (IsValidLanding3D t _); simpl; repeat split; ring.
Qed.

(** ** C9: thrust level clamping *)

(** C9. [Lander::ApplyThrust] accepts every amount: the stored level is in
    [[0, 1]], equals the amount clamped into [[0, 1]] when there is fuel,
    and thrust is active exactly when that clamped level is positive and
    fuel is positive. *)
Theorem ApplyThrust_clamps a l :
  let l' := Lander_ApplyThrust a l in
  let clamped := std_max 0 (std_min 1 a) in
  0 <= mThrustLevel l' /\ mThrustLevel l' <= 1 /\
  (0 < mFuel l -> mThrustLevel l' = clamped) /\
  (a <= 0 -> clamped == 0) /\ (1 <= a -> clamped == 1) /\
  (0 <= a -> a <= 1 -> clamped == a) /\
  (mThrustActive l' = true <-> 0 < clamped /\ 0 < mFuel l).
Proof.
  cbv zeta. unfold Lander_ApplyThrust.
  pose proof (std_max_ge_l 0 (std_min 1 a)) as Hge.
  pose proof (std_min_le_l 1 a) as Hmin.
  assert (Hle : std_max 0 (std_min 1 a) <= 1)
    by (destruct (std_max_cases 0 (std_min 1 a)) as [-> | ->]; lra).
  assert (Hc1 : a <= 0 -> std_max 0 (std_min 1 a) == 0).
  { intro Ha. unfold std_max, std_min.
    destruct (qlt a 1) eqn:E1; [|apply qlt_false in E1; lra].
    destruct (qlt 0 a) eqn:E2; [apply qlt_spec in E2; lra | reflexivity]. }
  assert (Hc2 : 1 <= a -> std_max 0 (std_min 1 a) == 1).
  { intro Ha. unfold std_max, std_min.
    destruct (qlt a 1) eqn:E1; [apply qlt_spec in E1; lra|].
    destruct (qlt 0 1) eqn:E2; [reflexivity | apply qlt_false in E2; lra]. }
  assert (Hc3 : 0 <= a -> a <= 1 -> std_max 0 (std_min 1 a) == a).
  { intros Ha Hb. unfold std_max, std_min.
    destruct (qlt a 1) eqn:E1.
    - destruct (qlt 0 a) eqn:E2; [reflexivity | apply qlt_false in E2; lra].
    - apply qlt_false in E1.
      destruct (qlt 0 1) eqn:E2; [lra | apply qlt_false in E2; lra]. }
  destruct (qle (mFuel l) 0) eqn:E; simpl.
  - apply qle_spec in E.
    repeat split; auto; try lra; try discriminate; try (intros [_ Hf]; lra).
  - apply qle_false in E.
    repeat split; auto.
    + apply qlt_spec in H. exact H.
    + intros [H _]. apply qlt_spec. exact H.
Qed.

(** ** C3: fuel bookkeeping *)

(** C3. In every reachable state and for every step [dt >= 0],
    [Lander::Update] never increases fuel; with thrust active it subtracts
    [rate * level * dt], clamping at exactly 0; fuel stays non-negative;
    whenever the fuel after the step is 0 the thrust is off; and
    [Lander::ApplyThrust] never turns thrust on without fuel. *)
Theorem Lander_Update_fuel g dt :
  Reach g -> 0 <= dt ->
  let l := mLander g in
  let l' := Lander_Update dt l in
  let f1 := mFuel l - mFuelConsumptionRate l * mThrustLevel l * dt in
  mFuel l' <= mFuel l /\ 0 <= mFuel l' /\
  (mThrustActive l = true ->
     (0 < f1 -> mFuel l' = f1) /\ (f1 <= 0 -> mFuel l' = 0)) /\
  (mThrustActive l = false -> mFuel l' = mFuel l) /\
  (mFuel l' <= 0 -> mThrustActive l' = false) /\
  (forall a l0, mFuel l0 <= 0 -> mThrustActive (Lander_ApplyThrust a l0) = false).
Proof.
  intros Hr Hdt. destruct (reachable_ok g Hr) as [HO _].
  cbv zeta. set (l := mLander g) in *. clearbody l.
  destruct HO as (H0 & H1 & H2 & H3 & H4 & H5 & H6 & H7 & H8).
  assert (Hp : 0 <= mFuelConsumptionRate l * mThrustLevel l * dt).
  { rewrite H5. apply Qmult_le_0_compat; [apply Qmult_le_0_compat|]; lra. }
  assert (HA : forall a l0, mFuel l0 <= 0 ->
                 mThrustActive (Lander_ApplyThrust a l0) = false).
  { intros a l0 Hf. unfold Lander_ApplyThrust.
    destruct (qle (mFuel l0) 0) eqn:E; [reflexivity|].
    apply qle_false in E. lra. }
  set (f1 := mFuel l - mFuelConsumptionRate l * mThrustLevel l * dt).
  unfold Lander_Update. cbn [mThrustActive mFuel set_position].
  destruct (mThrustActive l) eqn:EA.
  - assert (EF : qlt 0 (mFuel l) = true) by (apply qlt_spec; auto).
    rewrite EF. cbn [andb mFuel mFuelConsumptionRate mThrustLevel set_position].
    fold f1. unfold std_max. destruct (qlt 0 f1) eqn:E1.
    + apply qlt_spec in E1.
      destruct (qle f1 0) eqn:E2; [apply qle_spec in E2; lra|].
      simpl. repeat split; auto; try (unfold f1 in *; lra); try discriminate.
    + apply qlt_false in E1. simpl.
      repeat split; auto; try lra; try discriminate.
  - simpl. repeat split; auto; try lra; try discriminate.
Qed.

(** ** C10: the fuel-used counter *)

(** C10. The cumulative fuel-used counter is 0 in every reachable state:
    [Game::ProcessInput] compares the fuel reading with itself, so it never
    adds to it, and [Game::Reset] writes 0. *)
Theorem fuel_used_zero g :
  reachable setpos2_z fsin fcos M_PI USE_OPENGL g ->
  mFuelUsed g = 0 /\
  (forall inp t, mFuelUsed (Game_ProcessInput setpos2_z inp t g) = 0).
Proof.
  intro Hr. pose proof (reachable_ok g Hr) as HG.
  split; [exact (proj2 (proj2 HG))|].
  intros inp t. exact (proj2 (proj2 (Game_ProcessInput_ok inp t g HG))).
Qed.

(** ** C5: scoring *)

(** C5. In a reachable state where the game is FLYING, if after
    [Game::Update] the lander has landed, the state is LANDED and the score
    is [fuel / maxFuel * 1000]; if it has crashed, the state is CRASHED and
    the score is 0. *)
Theorem Game_Update_score g dt :
  Reach g -> mGameState g = FLYING ->
  let g' := GUpdate dt g in
  let l := mLander g' in
  (IsLanded l = true ->
     mGameState g' = LANDED /\ mScore g' = mFuel l / mMaxFuel l * 1000) /\
  (IsCrashed l = true -> mGameState g' = CRASHED /\ mScore g' = 0).
Proof.
  intros Hr HF. destruct (reachable_ok g Hr) as [HO [H3D _]].
  assert (HU : lander_ok (Lander_Update dt (PUpdate (mPhysics g) (mTerrain g) dt (mLander g)))).
  { apply Lander_Update_ok. unfold Physics_Update. rewrite H3D.
    apply Update2D_ok; auto. }
  destruct HU as (_ & _ & HX & _).
  unfold Game_Update. rewrite HF.
  set (lu := Lander_Update dt (PUpdate (mPhysics g) (mTerrain g) dt (mLander g))) in *.
  unfold IsLanded, IsCrashed in *.
  destruct (mLanded lu) eqn:EL, (mCrashed lu) eqn:EC; simpl; rewrite ?EL, ?EC.
  - exfalso. auto.
  - split; [auto | discriminate].
  - split; [discriminate | auto].
  - split; discriminate.
Qed.

Lemma Lander_Update_position dt l :
  mPosition (Lander_Update dt l) =
  mkV3 (c0 (mPosition l) + c0 (mVelocity l) * dt)
       (c1 (mPosition l) + c1 (mVelocity l) * dt)
       (c2 (mPosition l) + c2 (mVelocity l) * dt).
Proof. unfold Lander_Update. simpl. break_ifs; reflexivity. Qed.

Lemma Lander_Update_stopped dt l : stopped (Lander_Update dt l) = stopped l.
Proof.
  destruct (Lander_Update_fields dt l) as (_ & HL & HC & _).
  unfold stopped, IsLanded, IsCrashed. now rewrite HL, HC.
Qed.

(** One physics step of a lander in flight that ends without an outcome is
    one Euler step with the new velocity. *)
Lemma PUpdate_no_outcome ph t dt l :
  stopped l = false -> stopped (PUpdate ph t dt l) = false ->
  let l' := PUpdate ph t dt l in
  c0 (mPosition l') = c0 (mPosition l) + c0 (mVelocity l') * dt /\
  c1 (mPosition l') = c1 (mPosition l) + c1 (mVelocity l') * dt /\
  (m3DMode ph = true -> c2 (mPosition l') = c2 (mPosition l) + c2 (mVelocity l') * dt).
Proof.
  intros ES ES'. cbv zeta. unfold Physics_Update in *.
  destruct (m3DMode ph) eqn:E3.
  - rewrite Update3D_flying in * by exact ES.
    rewrite CC3_no_outcome by exact ES'.
    destruct (apply_forces_shape ph dt l) as [v [E _]]. rewrite E.
    simpl. auto.
  - rewrite Update2D_flying in * by exact ES.
    rewrite CC2_no_outcome by exact ES'.
    destruct (apply_forces_shape ph (dt * mTimeScale ph) l) as [v [E _]].
    rewrite E. simpl. repeat split; auto. discriminate.
Qed.

(** ** C4: the double position update *)

(** C4. When the game is FLYING and the frame ends without a landing or a
    crash (no collision reported), [Game::Update] moves the lander by twice
    [velocity * dt]: once in the Euler step of [Physics::Update] and once in
    [Lander::Update] ([x] and [y]; also [z] when the physics is in 3D mode). *)
Theorem Game_Update_double_step g dt :
  mGameState g = FLYING -> stopped (mLander g) = false ->
  stopped (mLander (GUpdate dt g)) = false ->
  let p := mPosition (mLander g) in
  let p' := mPosition (mLander (GUpdate dt g)) in
  let v := mVelocity (mLander (GUpdate dt g)) in
  c0 p' == c0 p + 2 * c0 v * dt /\ c1 p' == c1 p + 2 * c1 v * dt /\
  (m3DMode (mPhysics g) = true -> c2 p' == c2 p + 2 * c2 v * dt).
Proof.
  intros HF ES ES'. cbv zeta. unfold Game_Update in *. rewrite HF in *.
  set (lp := PUpdate (mPhysics g) (mTerrain g) dt (mLander g)) in *.
  assert (HlpS : stopped lp = false).
  { rewrite <- (Lander_Update_stopped dt lp).
    destruct (IsLanded (Lander_Update dt lp)), (IsCrashed (Lander_Update dt lp));
      exact ES'. }
  destruct (PUpdate_no_outcome (mPhysics g) (mTerrain g) dt (mLander g) ES HlpS)
    as (Hx & Hy & Hz).
  fold lp in Hx, Hy, Hz.
  destruct (Lander_Update_fields dt lp) as (Hv & _).
  destruct (IsLanded (Lander_Update dt lp)), (IsCrashed (Lander_Update dt lp));
    simpl; rewrite Lander_Update_position, Hv; simpl;
    rewrite Hx, Hy; repeat split; try ring;
    intro H3; rewrite (Hz H3); ring.
Qed.

Ltac unfold_lander :=
  cbv [Lander_Reset SetPosition2 SetPosition3 set_active set_position
       set_rotation set_velocity set_acceleration set_thrust set_fuel set_flags
       mPosition mRotation mVelocity mAcceleration mActive mWidth mHeight mDepth
       mMass mThrustLevel mThrustActive mMaxThrustForce mFuel mMaxFuel
       mFuelConsumptionRate mLanded mCrashed].

(** [Lander::Reset] overwrites the position and keeps the active flag. *)
Lemma Lander_Reset_SetPosition3 x y z l :
  Lander_Reset (SetPosition3 x y z l) = Lander_Reset l.
Proof. destruct l. unfold_lander. reflexivity. Qed.

Lemma Lander_Reset_SetPosition2 x y l :
  Lander_Reset (SetPosition2 setpos2_z x y l) = Lander_Reset l.
Proof. destruct l. unfold_lander. reflexivity. Qed.

Lemma Lander_Reset_active_idem l :
  set_active true (Lander_Reset (set_active true (Lander_Reset l))) =
  set_active true (Lander_Reset l).
Proof. destruct l. unfold_lander. reflexivity. Qed.

(** ** C6: reset *)

(** C6. Whatever the prior state, [Game::Reset] yields state FLYING (not
    READY), score, elapsed time and fuel used 0, and a lander at the mode's
    start position ([(W/2, H/3, W/2)] in 3D, [(W/2, 100)] in 2D) with zero
    rotation and velocity, full fuel, no thrust and neither flag; resetting
    again gives the same state (up to the regenerated terrain); in a
    reachable state that start position is [(400, 200, 400)] or
    [(400, 100)] and the fuel is 1000. *)
Theorem Game_Reset_state t g :
  let g' := GReset t g in
  let l := mLander g' in
  mGameState g' = FLYING /\ mScore g' = 0 /\ mElapsedTime g' = 0 /\
  mFuelUsed g' = 0 /\
  mPosition l =
    (if g3DMode g
     then mkV3 (idiv (mWindowWidth g) 2) (idiv (mWindowHeight g) 3)
               (idiv (mWindowWidth g) 2)
     else mkV3 (idiv (mWindowWidth g) 2) 100 (setpos2_z 0)) /\
  mRotation l = zero3 /\ mVelocity l = zero3 /\
  mFuel l = mMaxFuel (mLander g) /\ mThrustLevel l = 0 /\
  mThrustActive l = false /\ mLanded l = false /\ mCrashed l = false /\
  (forall t', GReset t' g' = GReset t' g) /\
  (Reach g ->
     mPosition l = (if g3DMode g then mkV3 400 200 400
                    else mkV3 400 100 (setpos2_z 0)) /\
     mFuel l = 1000).
Proof.
  cbv zeta.
  assert (Hfix : forall t', GReset t' (GReset t g) = GReset t' g).
  { intro t'. unfold Game_Reset.
    cbn [mLander g3DMode mWindowWidth mWindowHeight mDifficulty mIsRunning
         mPhysics].
    destruct (g3DMode g).
    - rewrite Lander_Reset_SetPosition3, Lander_Reset_active_idem.
      reflexivity.
    - rewrite Lander_Reset_SetPosition2, Lander_Reset_active_idem.
      reflexivity. }
  assert (Hreach : Reach g ->
     mPosition (mLander (GReset t g)) =
       (if g3DMode g then mkV3 400 200 400 else mkV3 400 100 (setpos2_z 0)) /\
     mFuel (mLander (GReset t g)) = 1000).
  { intro Hr. destruct (reachable_window g Hr) as [HW HH].
    destruct (reachable_ok g Hr) as [(_ & _ & _ & _ & _ & _ & HM & _) _].
    unfold Game_Reset. destruct (g3DMode g); cbn; rewrite ?HW, ?HH, ?HM;
      split; reflexivity. }
  do 12 (split; [unfold Game_Reset; destruct (g3DMode g); cbn; reflexivity|]).
  split; [exact Hfix | exact Hreach].
Qed.

(** ** C7: the time scale *)

(** C7. For a lander in flight, [Physics::Update2D] applies the forces with
    [dt * timeScale] and then the Euler step with the unscaled [dt] (in
    vacuum and without thrust the [y] velocity gains exactly
    [gravity * (dt * timeScale) * 10.31]), while [Physics::Update3D] uses the
    unscaled [dt] for both and does not depend on the time scale at all. *)
Theorem time_scale_paths ph t dt l :
  stopped l = false ->
  (let l1 := apply_forces fsin fcos M_PI ph (dt * mTimeScale ph) l in
   U2 ph t dt l =
   snd (CC2 t (SetPosition2 setpos2_z
                 (c0 (mPosition l1) + c0 (mVelocity l1) * dt)
                 (c1 (mPosition l1) + c1 (mVelocity l1) * dt) l1))) /\
  (mThrustActive l = false -> mAirDensity ph <= 0 ->
   mVelocity (apply_forces fsin fcos M_PI ph (dt * mTimeScale ph) l) =
   mkV3 (c0 (mVelocity l))
        (c1 (mVelocity l) + mGravity ph * (dt * mTimeScale ph) * (1031 # 100))
        (c2 (mVelocity l))) /\
  (let l1 := apply_forces fsin fcos M_PI ph dt l in
   U3 ph t dt l =
   snd (CC3 t (SetPosition3 (c0 (mPosition l1) + c0 (mVelocity l1) * dt)
                 (c1 (mPosition l1) + c1 (mVelocity l1) * dt)
                 (c2 (mPosition l1) + c2 (mVelocity l1) * dt) l1))) /\
  (forall ts,
   U3 {| mGravity := mGravity ph; mAirDensity := mAirDensity ph;
         m3DMode := m3DMode ph; mTimeScale := ts |} t dt l = U3 ph t dt l).
Proof.
  intro ES. split; [|split; [|split]].
  - apply Update2D_flying. exact ES.
  - intros HT HD.
    assert (Hq : qle (mAirDensity ph) 0 = true) by (apply qle_spec; exact HD).
    apply stopped_false in ES as [HL HC].
    unfold apply_forces, ApplyDrag, ApplyThrust, ApplyGravity, stopped,
      IsLanded, IsCrashed.
    rewrite HL, HC. simpl. rewrite HL, HC, HT. simpl. rewrite HL, HC, Hq.
    reflexivity.
  - apply Update3D_flying. exact ES.
  - intro ts. reflexivity.
Qed.


(** * Further properties of the code *)

(** ** Rotation *)

Lemma inject_nat_S n :
  inject_Z (Z.of_nat (S n)) == inject_Z (Z.of_nat n) + 1.
Proof. rewrite Nat2Z.inj_succ, <- Z.add_1_r, inject_Z_plus. reflexivity. Qed.

Lemma inject_nat_nonneg n : 0 <= inject_Z (Z.of_nat n).
Proof. change 0 with (inject_Z 0). rewrite <- Zle_Qle. lia. Qed.

(** The [while] loop of [RotateLeft]: it subtracts whole turns, ends below
    360 when given enough iterations, and never goes below 0 from a
    non-negative start. *)
Lemma wrap_down_spec n r :
  (exists k : nat, wrap_down n r == r - 360 * inject_Z (Z.of_nat k)) /\
  (r < 360 * inject_Z (Z.of_nat n) -> wrap_down n r < 360) /\
  (0 <= r -> 0 <= wrap_down n r).
Proof.
  revert r. induction n as [|n IH]; intro r; cbn [wrap_down wrap_up].
  - split; [exists 0%nat; simpl; ring|]. split; [intro H; change (inject_Z (Z.of_nat 0)) with 0 in H; lra | intro; lra].
  - destruct (qle 360 r) eqn:E.
    + apply qle_spec in E. destruct (IH (r - 360)) as [[k Hk] [H2 H3]].
      split; [|split].
      * exists (S k). rewrite Hk, inject_nat_S. ring.
      * intro H. apply H2. rewrite inject_nat_S in H. lra.
      * intro. apply H3. lra.
    + apply qle_false in E. split; [exists 0%nat; simpl; ring|].
      split; intros; lra.
Qed.

(** The [while] loop of [RotateRight]. *)
Lemma wrap_up_spec n r :
  (exists k : nat, wrap_up n r == r + 360 * inject_Z (Z.of_nat k)) /\
  (0 <= r + 360 * inject_Z (Z.of_nat n) -> 0 <= wrap_up n r) /\
  (r < 360 -> wrap_up n r < 360).
Proof.
  revert r. induction n as [|n IH]; intro r; cbn [wrap_down wrap_up].
  - split; [exists 0%nat; simpl; ring|]. split; [intro H; change (inject_Z (Z.of_nat 0)) with 0 in H; lra | intro; lra].
  - destruct (qlt r 0) eqn:E.
    + apply qlt_spec in E. destruct (IH (r + 360)) as [[k Hk] [H2 H3]].
      split; [|split].
      * exists (S k). rewrite Hk, inject_nat_S. ring.
      * intro H. apply H2. rewrite inject_nat_S in H. lra.
      * intro. apply H3. lra.
    + apply qlt_false in E. split; [exists 0%nat; simpl; ring|].
      split; intros; lra.
Qed.

(** The iteration bounds used for the loops are large enough. *)
Lemma wrap_down_fuel r :
  r < 360 * inject_Z (Z.of_nat (S (Z.to_nat (Qfloor (r / 360))))).
Proof.
  rewrite inject_nat_S.
  set (x := r / 360).
  assert (Hx : r == 360 * x) by (unfold x; field).
  pose proof (Qlt_floor x) as Hlt. rewrite inject_Z_plus in Hlt.
  change (inject_Z 1) with 1 in Hlt.
  destruct (Z_le_gt_dec 0 (Qfloor x)) as [Hp|Hn].
  - rewrite Z2Nat.id by exact Hp. lra.
  - replace (Z.to_nat (Qfloor x)) with 0%nat by lia.
    assert (inject_Z (Qfloor x) <= -1)
      by (change (-1) with (inject_Z (-1)); rewrite <- Zle_Qle; lia).
    change (inject_Z (Z.of_nat 0)) with 0. lra.
Qed.

Lemma wrap_up_fuel r :
  0 <= r + 360 * inject_Z (Z.of_nat (S (Z.to_nat (- Qfloor (r / 360))))).
Proof.
  rewrite inject_nat_S.
  set (x := r / 360).
  assert (Hx : r == 360 * x) by (unfold x; field).
  pose proof (Qfloor_le x) as Hle.
  destruct (Z_le_gt_dec (Qfloor x) 0) as [Hn|Hp].
  - rewrite Z2Nat.id by lia. rewrite inject_Z_opp. lra.
  - replace (Z.to_nat (- Qfloor x)) with 0%nat by lia.
    assert (1 <= inject_Z (Qfloor x))
      by (change 1 with (inject_Z 1); rewrite <- Zle_Qle; lia).
    change (inject_Z (Z.of_nat 0)) with 0. lra.
Qed.



(** The two rotations the game makes keep a normalised rotation. *)
Lemma RotateLeft_rotation_ok a l :
  0 <= a -> rotation_ok (mRotation l) -> rotation_ok (mRotation (RotateLeft a l)).
Proof.
  intros Ha (H0 & H1 & H2 & H3).
  unfold RotateLeft. set (r2 := c2 (mRotation l) + a).
  destruct (wrap_down_spec (S (Z.to_nat (Qfloor (r2 / 360)))) r2)
    as [_ [HA HB]].
  unfold rotation_ok; simpl. split; [exact H0|]. split; [exact H1|].
  split; [apply HB; unfold r2; lra | apply HA, wrap_down_fuel].
Qed.

Lemma RotateRight_rotation_ok a l :
  0 <= a -> rotation_ok (mRotation l) -> rotation_ok (mRotation (RotateRight a l)).
Proof.
  intros Ha (H0 & H1 & H2 & H3).
  unfold RotateRight. set (r2 := c2 (mRotation l) - a).
  destruct (wrap_up_spec (S (Z.to_nat (- Qfloor (r2 / 360)))) r2)
    as [_ [HA HB]].
  unfold rotation_ok; simpl. split; [exact H0|]. split; [exact H1|].
  split; [apply HA, wrap_up_fuel | apply HB; unfold r2; lra].
Qed.

(** ** Fields the physics step and the lander operations leave alone *)

Lemma CC2_ctrl t l :
  let l' := snd (CC2 t l) in
  mRotation l' = mRotation l /\ mFuel l' = mFuel l /\
  mThrustLevel l' = mThrustLevel l /\ mThrustActive l' = mThrustActive l /\
  mMaxFuel l' = mMaxFuel l /\ mFuelConsumptionRate l' = mFuelConsumptionRate l.
Proof.
  unfold CheckCollisions2D. destruct (stopped l); [repeat split|].
  destruct (CheckCollision2D t l); [|repeat split].
  destruct (IsValidLanding2D t _); repeat split.
Qed.

Lemma CC3_ctrl t l :
  let l' := snd (CC3 t l) in
  mRotation l' = mRotation l /\ mFuel l' = mFuel l /\
  mThrustLevel l' = mThrustLevel l /\ mThrustActive l' = mThrustActive l /\
  mMaxFuel l' = mMaxFuel l /\ mFuelConsumptionRate l' = mFuelConsumptionRate l.
Proof.
  unfold CheckCollisions3D. destruct (stopped l); [repeat split|].
  destruct (CheckCollision3D t l); [|repeat split].
  destruct (IsValidLanding3D t _); repeat split.
Qed.

(** [Physics::Update] writes only position, velocity and the outcome
    flags. *)
Lemma PUpdate_ctrl ph t dt l :
  let l' := PUpdate ph t dt l in
  mRotation l' = mRotation l /\ mFuel l' = mFuel l /\
  mThrustLevel l' = mThrustLevel l /\ mThrustActive l' = mThrustActive l /\
  mMaxFuel l' = mMaxFuel l /\ mFuelConsumptionRate l' = mFuelConsumptionRate l.
Proof.
  cbv zeta. destruct (stopped l) eqn:ES.
  - rewrite Physics_Update_stopped by exact ES. repeat split.
  - unfold Physics_Update. destruct (m3DMode ph).
    + rewrite Update3D_flying by exact ES.
      destruct (apply_forces_shape ph dt l) as [v [E _]]. rewrite E.
      match goal with |- context [snd (CC3 t ?x)] =>
        destruct (CC3_ctrl t x) as (A1 & A2 & A3 & A4 & A5 & A6) end.
      rewrite A1, A2, A3, A4, A5, A6. repeat split.
    + rewrite Update2D_flying by exact ES.
      destruct (apply_forces_shape ph (dt * mTimeScale ph) l) as [v [E _]].
      rewrite E.
      match goal with |- context [snd (CC2 t ?x)] =>
        destruct (CC2_ctrl t x) as (A1 & A2 & A3 & A4 & A5 & A6) end.
      rewrite A1, A2, A3, A4, A5, A6. repeat split.
Qed.

Lemma Lander_Update_rotation dt l : mRotation (Lander_Update dt l) = mRotation l.
Proof. unfold Lander_Update. simpl. break_ifs; reflexivity. Qed.

(** With a non-negative step and consumption, [Lander::Update] never raises
    the fuel above a bound it was under. *)
Lemma Lander_Update_fuel_bound dt l b :
  0 <= dt -> 0 <= mFuelConsumptionRate l * mThrustLevel l -> 0 <= b ->
  mFuel l <= b -> mFuel (Lander_Update dt l) <= b.
Proof.
  intros Hdt Hk Hb Hf.
  assert (0 <= mFuelConsumptionRate l * mThrustLevel l * dt)
    by (apply Qmult_le_0_compat; assumption).
  unfold Lander_Update. simpl.
  destruct (mThrustActive l && qlt 0 (mFuel l)); [|exact Hf].
  destruct (std_max_cases 0 (mFuel l - mFuelConsumptionRate l * mThrustLevel l * dt))
    as [E|E];
  destruct (qle (std_max 0 _) 0); simpl; rewrite E; lra.
Qed.

Lemma Lander_ApplyThrust_fields a l :
  let l' := Lander_ApplyThrust a l in
  mRotation l' = mRotation l /\ mFuel l' = mFuel l /\
  mPosition l' = mPosition l /\ mVelocity l' = mVelocity l /\
  mMaxFuel l' = mMaxFuel l /\ mFuelConsumptionRate l' = mFuelConsumptionRate l /\
  mLanded l' = mLanded l /\ mCrashed l' = mCrashed l.
Proof. unfold Lander_ApplyThrust. destruct (qle (mFuel l) 0); repeat split. Qed.

(** ** The flying branch of [Game::ProcessInput] *)

(** In FLYING, [ProcessInput] only replaces the lander (thrust, then the
    optional rotations) and possibly clears the running flag. *)
Lemma ProcessInput_flying_shape inp t g :
  mGameState g = FLYING ->
  let l1 := Lander_ApplyThrust (if IsThrustActive inp then 1 else 0) (mLander g) in
  let l2 := if IsRotateLeftActive inp then RotateLeft 2 l1 else l1 in
  let l3 := if IsRotateRightActive inp then RotateRight 2 l2 else l2 in
  Game_ProcessInput setpos2_z inp t g =
    if IsQuitActive inp then with_running false (with_lander l3 g)
    else with_lander l3 g.
Proof.
  intros HF. cbv zeta. unfold Game_ProcessInput. rewrite HF. cbv zeta.
  rewrite qlt_irrefl.
  destruct (IsThrustActive inp), (IsRotateLeftActive inp),
    (IsRotateRightActive inp), (IsQuitActive inp); reflexivity.
Qed.

(** ** The invariant [flight_ok] *)

Lemma flight_ok_running b g : flight_ok g -> flight_ok (with_running b g).
Proof. intro H. exact H. Qed.

Lemma Game_Reset_flight t g :
  physics_ok (mPhysics g) -> mMaxFuel (mLander g) = 1000 ->
  flight_ok (GReset t g).
Proof.
  intros Hp HM. unfold flight_ok. split; [exact Hp|].
  unfold Game_Reset, rotation_ok.
  destruct (g3DMode g); simpl; rewrite HM;
    repeat split; try lra; discriminate.
Qed.

Lemma physics_new_ok : physics_ok Physics_new.
Proof. unfold physics_ok; simpl. repeat split. right; left; reflexivity. Qed.

Lemma Game_Initialize_flight t g :
  flight_ok (Game_Initialize setpos2_z USE_OPENGL t g).
Proof.
  unfold Game_Initialize. apply flight_ok_running.
  apply Game_Reset_flight; [exact physics_new_ok | reflexivity].
Qed.

Lemma Game_ProcessInput_flight inp t g :
  game_ok g -> flight_ok g -> flight_ok (Game_ProcessInput setpos2_z inp t g).
Proof.
  intros [HO _] HI. pose proof HI as (Hp & Hr & Hst & Hs0 & Hs1 & He & Hf).
  destruct HO as (_ & _ & _ & _ & _ & _ & HM & _).
  destruct (mGameState g) eqn:HS.
  - contradiction.
  - rewrite (ProcessInput_flying_shape inp t g HS). cbv zeta.
    set (l1 := Lander_ApplyThrust (if IsThrustActive inp then 1 else 0) (mLander g)).
    destruct (Lander_ApplyThrust_fields (if IsThrustActive inp then 1 else 0)
                (mLander g)) as (Hr1 & Hf1 & _).
    fold l1 in Hr1, Hf1.
    assert (Hl2 : rotation_ok (mRotation (if IsRotateLeftActive inp then RotateLeft 2 l1 else l1)) /\
                  mFuel (if IsRotateLeftActive inp then RotateLeft 2 l1 else l1) = mFuel (mLander g)).
    { destruct (IsRotateLeftActive inp).
      - split; [apply RotateLeft_rotation_ok; [lra|]; rewrite Hr1; exact Hr|exact Hf1].
      - rewrite Hr1, Hf1. split; [exact Hr | reflexivity]. }
    set (l2 := if IsRotateLeftActive inp then RotateLeft 2 l1 else l1) in *.
    destruct Hl2 as [Hr2 Hf2].
    assert (Hl3 : rotation_ok (mRotation (if IsRotateRightActive inp then RotateRight 2 l2 else l2)) /\
                  mFuel (if IsRotateRightActive inp then RotateRight 2 l2 else l2) = mFuel (mLander g)).
    { destruct (IsRotateRightActive inp).
      - split; [apply RotateRight_rotation_ok; [lra|]; exact Hr2 | exact Hf2].
      - split; [exact Hr2 | exact Hf2]. }
    set (l3 := if IsRotateRightActive inp then RotateRight 2 l2 else l2) in *.
    destruct Hl3 as [Hr3 Hf3].
    assert (Hw : flight_ok (with_lander l3 g)).
    { unfold flight_ok, with_lander.
      cbn [mPhysics mLander mGameState mScore mElapsedTime].
      rewrite Hf3. rewrite HS. exact (conj Hp (conj Hr3 (conj Hst (conj Hs0 (conj Hs1 (conj He Hf)))))). }
    destruct (IsQuitActive inp); [apply flight_ok_running|]; exact Hw.
  - unfold Game_ProcessInput. rewrite HS.
    destruct (IsResetActive inp), (IsQuitActive inp);
      try apply flight_ok_running;
      try (apply Game_Reset_flight; assumption); exact HI.
  - unfold Game_ProcessInput. rewrite HS.
    destruct (IsResetActive inp), (IsQuitActive inp);
      try apply flight_ok_running;
      try (apply Game_Reset_flight; assumption); exact HI.
Qed.

Lemma Game_Update_flight dt g :
  0 <= dt -> game_ok g -> flight_ok g -> flight_ok (GUpdate dt g).
Proof.
  intros Hdt HG HI. pose proof HI as (Hp & Hr & Hst & Hs0 & Hs1 & He & Hf).
  destruct HG as [HO [H3D _]].
  pose proof HO as (_ & _ & _ & HL0 & _ & HR & HM & _).
  unfold Game_Update. destruct (mGameState g) eqn:HS; try exact HI.
  destruct (PUpdate_ctrl (mPhysics g) (mTerrain g) dt (mLander g))
    as (Rr & Rf & Rl & _ & Rm & Rc).
  assert (HO1 : lander_ok (PUpdate (mPhysics g) (mTerrain g) dt (mLander g))).
  { unfold Physics_Update. rewrite H3D. apply Update2D_ok; assumption. }
  remember (PUpdate (mPhysics g) (mTerrain g) dt (mLander g)) as l1 eqn:El1.
  pose proof (Lander_Update_ok dt l1 HO1) as HO2.
  pose proof (Lander_Update_rotation dt l1) as Rr2.
  destruct (Lander_Update_fields dt l1) as (_ & _ & _ & _ & Rm2 & _).
  assert (Hf2 : mFuel (Lander_Update dt l1) <= 1000).
  { apply Lander_Update_fuel_bound; [exact Hdt | | lra | rewrite Rf; exact Hf].
    rewrite Rc, Rl, HR. lra. }
  remember (Lander_Update dt l1) as l2 eqn:El2.
  destruct HO2 as (_ & _ & _ & _ & _ & _ & _ & HF2 & _).
  assert (HM2 : mMaxFuel l2 = 1000) by (rewrite Rm2, Rm; exact HM).
  assert (Hrot : rotation_ok (mRotation l2)) by (rewrite Rr2, Rr; exact Hr).
  destruct (IsLanded l2), (IsCrashed l2); unfold flight_ok;
    cbn [mPhysics mLander mGameState mScore mElapsedTime];
    (split; [exact Hp|]); (split; [exact Hrot|]);
    (split; [discriminate|]);
    try (rewrite HM2;
         assert (Hq : mFuel l2 / 1000 * 1000 == mFuel l2) by field;
         rewrite Hq);
    repeat split; lra.
Qed.

Lemma SetGravity_ok grav ph :
  physics_ok ph -> (grav = 1 \/ grav = 162 # 100 \/ grav = 2) ->
  physics_ok (SetGravity grav ph).
Proof.
  intros (H1 & H2 & H3 & _) Hg. unfold physics_ok, SetGravity; simpl. auto.
Qed.

Lemma Game_OnKeyDown_flight k t g :
  game_ok g -> flight_ok g ->
  flight_ok (Game_OnKeyDown setpos2_z USE_OPENGL k t g).
Proof.
  intros [HO _] HI. pose proof HI as (Hp & _).
  destruct HO as (_ & _ & _ & _ & _ & _ & HM & _).
  destruct k; simpl.
  - apply Game_Reset_flight; assumption.
  - exact HI.
  - apply Game_Reset_flight; simpl; [apply SetGravity_ok; auto |].
    unfold Lander_ApplyThrust. destruct (qle _ 0); exact HM.
  - apply Game_Reset_flight; simpl; [apply SetGravity_ok; auto |].
    unfold Lander_ApplyThrust. destruct (qle _ 0); exact HM.
  - apply Game_Reset_flight; simpl; [apply SetGravity_ok; auto |].
    unfold Lander_ApplyThrust. destruct (qle _ 0); exact HM.
  - unfold Game_SetRenderingMode.
    destruct (Bool.eqb _ _); [exact HI|].
    destruct (mIsRunning g); simpl; [apply Game_Initialize_flight | exact HI].
  - exact HI.
Qed.

(** Every reachable game state satisfies [flight_ok]. *)
Lemma reachable_flight_ok g : Reach g -> flight_ok g.
Proof.
  induction 1 as [b t0 t | g g' Hr IH Hs].
  - apply Game_Initialize_flight.
  - pose proof (reachable_ok g Hr) as HG.
    destruct Hs as [g inp t | g dt Hdt _ | g k t].
    + apply Game_ProcessInput_flight; assumption.
    + apply Game_Update_flight; assumption.
    + apply Game_OnKeyDown_flight; assumption.
Qed.

Ltac qprops :=
  repeat match goal with
         | H : qlt _ _ = true |- _ => apply qlt_spec in H
         | H : qlt _ _ = false |- _ => apply qlt_false in H
         | H : qle _ _ = true |- _ => apply qle_spec in H
         | H : qle _ _ = false |- _ => apply qle_false in H
         end.

(** ** X3, X6, X10, X11: what every reachable state satisfies *)


(** X6. In every reachable state the physics has air density 0, time scale
    1, is in 2D mode and has gravity 1, 1.62 or 2; so [Physics::ApplyDrag]
    never changes the lander in the game. *)
Theorem reachable_physics g :
  Reach g ->
  let ph := mPhysics g in
  mAirDensity ph = 0 /\ mTimeScale ph = 1 /\ m3DMode ph = false /\
  (mGravity ph = 1 \/ mGravity ph = 162 # 100 \/ mGravity ph = 2) /\
  (forall dt l, ApplyDrag ph dt l = l).
Proof.
  intro Hr. destruct (reachable_flight_ok g Hr) as ((HD & HT & H3 & HG) & _).
  cbv zeta. split; [exact HD|]. split; [exact HT|]. split; [exact H3|].
  split; [exact HG|].
  intros dt l. unfold ApplyDrag. rewrite HD. rewrite orb_true_r. reflexivity.
Qed.

(** X10. No reachable state is READY: [Initialize] ends in [Reset], which
    sets FLYING, and nothing sets READY again; so the start branch of
    [ProcessInput] never runs and [Renderer2D::RenderGameState] never draws
    the white "press SPACE" box. *)
Theorem reachable_not_ready g :
  Reach g ->
  mGameState g <> READY /\
  forall a rd,
    Forall (fun d => match d with
                     | FillRect _ _ _ _ r gr b _ => ~ (r = 255 /\ gr = 255 /\ b = 255)%Z
                     | Line _ _ _ _ _ _ _ _ => True
                     end)
           (Renderer2D.RenderGameState a rd g).
Proof.
  intro Hr. destruct (reachable_flight_ok g Hr) as (_ & _ & HS & _).
  split; [exact HS|]. intros a rd.
  unfold Renderer2D.RenderGameState, Renderer2D.DrawRect.
  destruct (Renderer2D.mInitialized rd); simpl; [|constructor].
  destruct (mGameState g); [contradiction | constructor | |];
    repeat constructor; intros (H1 & H2 & H3); discriminate.
Qed.

(** X11. In every reachable state the score is in [0, 1000], the elapsed
    time is non-negative and the fuel is between 0 and the maximum. *)
Theorem reachable_score g :
  reachable setpos2_z fsin fcos M_PI USE_OPENGL g ->
  0 <= mScore g <= 1000 /\ 0 <= mElapsedTime g /\
  0 <= mFuel (mLander g) <= mMaxFuel (mLander g).
Proof.
  intro Hr. destruct (reachable_flight_ok g Hr) as (_ & _ & _ & H0 & H1 & HE & HF).
  destruct (reachable_ok g Hr) as [(_ & _ & _ & _ & _ & _ & HM & HF0 & _) _].
  rewrite HM. repeat split; assumption.
Qed.

(** ** X7: thrust never outweighs gravity *)



(** ** X4: [Lander::Update] over two steps *)



(** ** X5: [Physics::ApplyDrag] *)



(** ** X8, X9: the difficulty and rendering-mode keys *)



(** X9. [Game::SetDifficulty(d)] sets the gravity of its difficulty (1,
    1.62 or 2) and keeps the other physics parameters, then restarts: the
    game is FLYING with score 0 and elapsed time 0, the lander at rest with
    thrust off and a full tank. *)
Theorem SetDifficulty_restarts d t g :
  let g' := Game_SetDifficulty setpos2_z d t g in
  let ph := mPhysics g in
  let ph' := mPhysics g' in
  mGravity ph' = match d with EASY => 1 | NORMAL => 162 # 100 | HARD => 2 end /\
  mAirDensity ph' = mAirDensity ph /\ m3DMode ph' = m3DMode ph /\
  mTimeScale ph' = mTimeScale ph /\
  mDifficulty g' = d /\ mGameState g' = FLYING /\ mScore g' = 0 /\
  mElapsedTime g' = 0 /\ mTerrain g' = t /\
  mVelocity (mLander g') = zero3 /\ mThrustLevel (mLander g') = 0 /\
  mThrustActive (mLander g') = false /\
  mFuel (mLander g') = mMaxFuel (mLander g).
Proof.
  cbv zeta. unfold Game_SetDifficulty.
  destruct (Lander_ApplyThrust_fields 0 (mLander g)) as (_ & _ & _ & _ & HM & _).
  unfold Game_Reset; simpl.
  destruct (g3DMode g); simpl; rewrite HM; repeat split.
Qed.

(** ** X12: the result of [Physics::CheckCollisions] *)

(** X12. [Physics::CheckCollisions] returns false and changes nothing for a
    lander already landed or crashed; for one still flying it returns true
    exactly when the terrain of the current mode reports a collision, and
    exactly when the lander it leaves is landed or crashed. *)
Theorem CheckCollisions_result ph t l :
  (stopped l = true -> CheckCollisions setpos2_z ph t l = (false, l)) /\
  (stopped l = false ->
   fst (CheckCollisions setpos2_z ph t l) =
     (if m3DMode ph then if CheckCollision3D t l then true else false
      else if CheckCollision2D t l then true else false) /\
   fst (CheckCollisions setpos2_z ph t l) =
     stopped (snd (CheckCollisions setpos2_z ph t l))).
Proof.
  unfold CheckCollisions. split.
  - intros ES. destruct (m3DMode ph);
      [apply CC3_stopped | apply CC2_stopped]; exact ES.
  - intros ES. destruct (m3DMode ph).
    + unfold CheckCollisions3D. rewrite ES.
      destruct (CheckCollision3D t l); [|split; [reflexivity|exact (eq_sym ES)]].
      destruct (IsValidLanding3D t _); split; try reflexivity;
        unfold stopped, IsLanded, IsCrashed; simpl; rewrite ?orb_true_r; reflexivity.
    + unfold CheckCollisions2D. rewrite ES.
      destruct (CheckCollision2D t l); [|split; [reflexivity|exact (eq_sym ES)]].
      destruct (IsValidLanding2D t _); split; try reflexivity;
        unfold stopped, IsLanded, IsCrashed; simpl; rewrite ?orb_true_r; reflexivity.
Qed.

(** ** X13: the flying branch of [Game::ProcessInput] *)

(** X13. In FLYING, [Game::ProcessInput] keeps the game FLYING and leaves
    the fuel-used counter, the lander's position, velocity and fuel alone;
    it sets full thrust when the thrust key is held and there is fuel, and
    no thrust otherwise. *)
Theorem ProcessInput_flying_thrust inp t g :
  mGameState g = FLYING ->
  let g' := Game_ProcessInput setpos2_z inp t g in
  let l := mLander g in
  let l' := mLander g' in
  mGameState g' = FLYING /\ mFuelUsed g' = mFuelUsed g /\
  mPosition l' = mPosition l /\ mVelocity l' = mVelocity l /\
  mFuel l' = mFuel l /\
  (if IsThrustActive inp && qlt 0 (mFuel l)
   then mThrustLevel l' = 1 /\ mThrustActive l' = true
   else mThrustLevel l' = 0 /\ mThrustActive l' = false).
Proof.
  intros HF. cbv zeta. rewrite (ProcessInput_flying_shape inp t g HF).
  cbv zeta.
  set (l1 := Lander_ApplyThrust (if IsThrustActive inp then 1 else 0) (mLander g)).
  assert (H1 : mPosition l1 = mPosition (mLander g) /\
               mVelocity l1 = mVelocity (mLander g) /\
               mFuel l1 = mFuel (mLander g) /\
               (if IsThrustActive inp && qlt 0 (mFuel (mLander g))
                then mThrustLevel l1 = 1 /\ mThrustActive l1 = true
                else mThrustLevel l1 = 0 /\ mThrustActive l1 = false)).
  { unfold l1, Lander_ApplyThrust.
    destruct (qle (mFuel (mLander g)) 0) eqn:Eq.
    - assert (Hl : qlt 0 (mFuel (mLander g)) = false)
        by (apply qlt_false; apply qle_spec; exact Eq).
      rewrite Hl, andb_false_r. repeat split.
    - assert (Hl : qlt 0 (mFuel (mLander g)) = true)
        by (apply qlt_spec; apply qle_false; exact Eq).
      rewrite Hl, andb_true_r.
      destruct (IsThrustActive inp); repeat split. }
  destruct H1 as (HP & HV & HFu & HT).
  destruct (IsRotateLeftActive inp), (IsRotateRightActive inp),
    (IsQuitActive inp); cbn;
    rewrite HF; repeat split; assumption.
Qed.

(** ** X14: the outcome is final until a restart *)


(** ** X15: the frame time of [Game::Run] *)

Lemma Run_deltaTime_cases c l :
  let e := ((c - l) mod 2 ^ 32)%Z in
  (0 <= e)%Z /\
  ((e <= 100)%Z -> Run_deltaTime c l == inject_Z e / 1000) /\
  ((100 < e)%Z -> Run_deltaTime c l = 1 # 10).
Proof.
  cbv zeta. set (e := ((c - l) mod 2 ^ 32)%Z).
  assert (He : (0 <= e)%Z) by (apply Z.mod_pos_bound; lia).
  unfold Run_deltaTime. fold e.
  split; [exact He|]. split.
  - intros Hle.
    assert (inject_Z e <= inject_Z 100) by (rewrite <- Zle_Qle; exact Hle).
    assert (Hq : qlt (1 # 10) (inject_Z e / 1000) = false).
    { apply qlt_false. apply Qle_shift_div_r; [reflexivity|].
      setoid_replace ((1 # 10) * 1000) with (inject_Z 100) by (vm_compute; reflexivity). assumption. }
    rewrite Hq. reflexivity.
  - intros Hlt.
    assert (inject_Z 100 < inject_Z e) by (rewrite <- Zlt_Qlt; exact Hlt).
    assert (Hq : qlt (1 # 10) (inject_Z e / 1000) = true).
    { apply qlt_spec. apply Qlt_shift_div_l; [reflexivity|].
      setoid_replace ((1 # 10) * 1000) with (inject_Z 100) by (vm_compute; reflexivity). assumption. }
    rewrite Hq. reflexivity.
Qed.

(** X15. The frame time [Game::Run] computes from two tick readings is
    always in [0, 0.1], so each frame is a step of the game; for readings
    of the 32-bit tick counter [e] milliseconds apart with [e <= 100] it is
    [e / 1000] seconds, also when the counter wraps around between the two
    readings. *)
Theorem Run_deltaTime_frame last e :
  (0 <= last < 2 ^ 32)%Z -> (0 <= e <= 100)%Z ->
  let current := ((last + e) mod 2 ^ 32)%Z in
  Run_deltaTime current last == inject_Z e / 1000 /\
  forall c l, 0 <= Run_deltaTime c l <= 1 # 10 /\
    forall g, game_step setpos2_z fsin fcos M_PI USE_OPENGL g
                (GUpdate (Run_deltaTime c l) g).
Proof.
  intros Hl He. cbv zeta. split.
  - destruct (Run_deltaTime_cases ((last + e) mod 2 ^ 32) last) as (_ & H & _).
    assert (Hm : (((last + e) mod 2 ^ 32 - last) mod 2 ^ 32 = e)%Z).
    { rewrite Zminus_mod_idemp_l.
      replace (last + e - last)%Z with e by ring.
      apply Z.mod_small. lia. }
    rewrite Hm in H. apply H. lia.
  - intros c l.
    assert (Hb : 0 <= Run_deltaTime c l <= 1 # 10).
    { destruct (Run_deltaTime_cases c l) as (H0 & H1 & H2).
      destruct (Z_le_gt_dec ((c - l) mod 2 ^ 32) 100) as [Hle|Hgt].
      - rewrite (H1 Hle). split.
        + apply Qle_shift_div_l; [reflexivity|].
          rewrite Qmult_0_l. change 0 with (inject_Z 0).
          rewrite <- Zle_Qle. exact H0.
        + apply Qle_shift_div_r; [reflexivity|].
          setoid_replace ((1 # 10) * 1000) with (inject_Z 100) by (vm_compute; reflexivity).
          rewrite <- Zle_Qle. exact Hle.
      - rewrite (H2 (Z.gt_lt _ _ Hgt)). split; [discriminate | apply Qle_refl]. }
    split; [exact Hb|].
    intros g. apply step_update; apply Hb.
Qed.

(** ** X16, X17, X18: [Renderer2D] *)

Lemma to_int_inject z : to_int (inject_Z z) = z.
Proof. unfold to_int. simpl. apply Z.quot_1_r. Qed.

(** [static_cast<int>] of a value in [0, k] is in [0, k]. *)
Lemma to_int_bounds q k : 0 <= q -> q <= inject_Z k -> (0 <= to_int q <= k)%Z.
Proof.
  destruct q as [n d]. unfold Qle, to_int. simpl. intros H0 H1.
  split; [apply Z.quot_pos; lia | apply Z.quot_le_upper_bound; lia].
Qed.

(** X16. In a reachable state, with a positive pixels-per-metre scale,
    [Renderer2D::RenderTelemetry] draws nothing when the renderer is not
    initialised, and otherwise exactly four boxes: the panel, the altitude
    bar, the velocity bar (blue when the lander moves up or is at rest, red
    when it moves down) and the fuel bar.  The velocity and fuel bars are
    0 to 180 pixels wide; the velocity bar is full beyond 6 / scale, the
    fuel bar empty when the tank is. *)
Theorem RenderTelemetry_bars a rd g :
  Reach g -> 0 < Renderer2D.mPixelsPerMeter rd ->
  let vy := c1 (mVelocity (mLander g)) in
  (Renderer2D.mInitialized rd = false -> Renderer2D.RenderTelemetry a rd g = []) /\
  (Renderer2D.mInitialized rd = true ->
   exists wa wv wf,
     Renderer2D.RenderTelemetry a rd g =
       [FillRect 10 10 200 100 50 50 50 200;
        FillRect 20 20 wa 20 0 255 0 a;
        FillRect 20 50 wv 20 (if qle vy 0 then 0 else 255) 0
                 (if qle vy 0 then 255 else 0) a;
        FillRect 20 80 wf 20 255 255 0 a] /\
     (0 <= wv <= 180)%Z /\ (0 <= wf <= 180)%Z /\
     (2 * 3 / Renderer2D.mPixelsPerMeter rd < Qabs vy -> wv = 180%Z) /\
     (mFuel (mLander g) <= 0 -> wf = 0%Z)).
Proof.
  intros Hr Hp. cbv zeta.
  destruct (reachable_score g Hr) as (_ & _ & HF0 & HF1).
  destruct (reachable_ok g Hr) as [(_ & _ & _ & _ & _ & _ & HM & _) _].
  split.
  - intros HI. unfold Renderer2D.RenderTelemetry. rewrite HI. reflexivity.
  - intros HI. unfold Renderer2D.RenderTelemetry, Renderer2D.DrawRect.
    rewrite HI. cbn [negb].
    set (ppm := Renderer2D.mPixelsPerMeter rd) in *.
    set (vy := c1 (mVelocity (mLander g))).
    set (p0 := Qabs vy / (2 * 3 / ppm)).
    set (pv := if qlt 1 p0 then 1 else p0).
    set (pf := mFuel (mLander g) / mMaxFuel (mLander g)).
    assert (Hs : 0 < 2 * 3 / ppm).
    { apply Qlt_shift_div_l; [exact Hp|]. rewrite Qmult_0_l. reflexivity. }
    assert (Hp0 : 0 <= p0).
    { apply Qle_shift_div_l; [exact Hs|]. rewrite Qmult_0_l. apply Qabs_nonneg. }
    assert (Hpv : 0 <= pv * 180 <= inject_Z 180).
    { unfold pv. destruct (qlt 1 p0) eqn:E; qprops.
      - split; [discriminate | apply Qle_refl].
      - split; [apply Qmult_le_0_compat; [exact Hp0 | discriminate]|].
        setoid_replace (inject_Z 180) with (1 * 180) by reflexivity.
        apply Qmult_le_compat_r; [exact E | discriminate]. }
    assert (Hpf : 0 <= pf * 180 <= inject_Z 180).
    { unfold pf. rewrite HM. split.
      - apply Qmult_le_0_compat; [|discriminate].
        apply Qle_shift_div_l; [reflexivity|]. rewrite Qmult_0_l. exact HF0.
      - setoid_replace (inject_Z 180) with (1 * 180) by reflexivity.
        apply Qmult_le_compat_r; [|discriminate].
        apply Qle_shift_div_r; [reflexivity|]. rewrite Qmult_1_l.
        rewrite HM in HF1. exact HF1. }
    exists (to_int (inject_Z (to_int (
      (inject_Z (Renderer2D.mHeight rd - 50)
       - (c1 (mPosition (mLander g)) + Lander_GetHeight (mLander g) / 2))
      / inject_Z (Renderer2D.mHeight rd - 150) * 180)))),
      (to_int (pv * 180)), (to_int (pf * 180)).
    split; [|split; [|split; [|split]]].
    + rewrite !to_int_inject. destruct (qle vy 0); reflexivity.
    + apply to_int_bounds; apply Hpv.
    + apply to_int_bounds; apply Hpf.
    + intros Hv. unfold pv.
      assert (E : qlt 1 p0 = true).
      { apply qlt_spec. unfold p0. apply Qlt_shift_div_l; [exact Hs|].
        rewrite Qmult_1_l. exact Hv. }
      rewrite E. reflexivity.
    + intros H0.
      assert (Hz : pf * 180 <= inject_Z 0).
      { unfold pf. rewrite HM.
        setoid_replace (inject_Z 0) with (0 * 180) by reflexivity.
        apply Qmult_le_compat_r; [|discriminate].
        apply Qle_shift_div_r; [reflexivity|]. rewrite Qmult_0_l. exact H0. }
      destruct (to_int_bounds (pf * 180) 0 (proj1 Hpf) Hz). lia.
Qed.

(** X17. [Renderer2D::Initialize] reports success exactly when SDL, the
    window and the renderer are all created; it stores the requested size
    even when it fails, and a failed call leaves the initialised flag as it
    was.  [Shutdown] after any [Initialize], successful or not, leaves the
    renderer as a [Shutdown] of the resized renderer: no window, no
    renderer, not initialised. *)
Theorem Initialize_Shutdown s w r W H rd :
  let res := Renderer2D.Initialize s w r W H rd in
  fst res = s && w && r /\
  Renderer2D.mWidth (snd res) = W /\ Renderer2D.mHeight (snd res) = H /\
  Renderer2D.mInitialized (snd res) = fst res || Renderer2D.mInitialized rd /\
  Renderer2D.mPixelsPerMeter (snd res) = Renderer2D.mPixelsPerMeter rd /\
  Renderer2D.Shutdown (snd res) =
    Renderer2D.Shutdown (Renderer2D.with_size W H rd) /\
  Renderer2D.mInitialized (Renderer2D.Shutdown (snd res)) = false.
Proof.
  cbv zeta. unfold Renderer2D.Initialize.
  destruct s, w, r; repeat split.
Qed.

(** X18. In a reachable state [Renderer2D::RenderLander] draws the orange
    thrust flame exactly when the renderer is initialised and the thrust is
    on, and it draws it only while the lander has fuel left. *)
Theorem RenderLander_flame a rd g :
  Reach g ->
  let l := mLander g in
  ((exists x y wd ht,
      In (FillRect x y wd ht 255 165 0 a) (Renderer2D.RenderLander a rd l)) <->
   Renderer2D.mInitialized rd = true /\ mThrustActive l = true) /\
  ((exists x y wd ht,
      In (FillRect x y wd ht 255 165 0 a) (Renderer2D.RenderLander a rd l)) ->
   0 < mFuel l).
Proof.
  intros Hr. cbv zeta.
  destruct (reachable_ok g Hr) as [(_ & _ & _ & _ & _ & _ & _ & _ & HT) _].
  assert (Hiff : (exists x y wd ht, In (FillRect x y wd ht 255 165 0 a)
                    (Renderer2D.RenderLander a rd (mLander g))) <->
                 Renderer2D.mInitialized rd = true /\
                 mThrustActive (mLander g) = true).
  { unfold Renderer2D.RenderLander, Renderer2D.DrawRect.
    destruct (Renderer2D.mInitialized rd); cbn [negb].
    - destruct (mThrustActive (mLander g)); simpl.
      + split; [intros _; split; reflexivity|]. intros _.
        do 4 eexists. right. left. reflexivity.
      + split; [|intros [_ H]; discriminate].
        intros (x & y & wd & ht & [E|[]]). discriminate.
    - split; [intros (x & y & wd & ht & [])|intros [H _]; discriminate]. }
  split; [exact Hiff|].
  intros Hd. apply HT. apply Hiff. exact Hd.
Qed.

(** X19. [Renderer2D::RenderTerrain] draws nothing when the renderer is not
    initialised; otherwise one line per terrain segment, in order, and a
    line is green exactly when its segment is a landing pad. *)
Theorem RenderTerrain_lines a rd segs :
  (Renderer2D.mInitialized rd = false -> Renderer2D.RenderTerrain a rd segs = []) /\
  (Renderer2D.mInitialized rd = true ->
   length (Renderer2D.RenderTerrain a rd segs) = length segs /\
   map green_line (Renderer2D.RenderTerrain a rd segs) = map isLandingPad segs).
Proof.
  split.
  - intros HI. unfold Renderer2D.RenderTerrain. rewrite HI. reflexivity.
  - intros HI. unfold Renderer2D.RenderTerrain, Renderer2D.DrawLine.
    rewrite HI. cbn [negb].
    induction segs as [|s segs [IH1 IH2]]; [split; reflexivity|].
    simpl. destruct (isLandingPad s); simpl; rewrite IH1, IH2; split; reflexivity.
Qed.
End Properties.

(** * Witnesses *)

Lemma CheckCollisions_outcome_witness :
  IsLanded Lander_new = false /\ IsCrashed Lander_new = false /\
  IsLanded (snd (CheckCollisions2D sample_z flat_pad Lander_new)) = true.
Proof.
  split; [reflexivity|]. split; [reflexivity|].
  destruct (CheckCollisions_outcome sample_z sample_sin sample_cos sample_pi
              false flat_pad Lander_new eq_refl eq_refl) as [H2 _].
  exact (proj1 H2).
Defined.

Lemma stopped_velocity_frozen_witness :
  reachable sample_z sample_sin sample_cos sample_pi false (start_game flat_pad) /\
  Physics_Update sample_z sample_sin sample_cos sample_pi Physics_new flat_pad
    (1 # 10) crashed_lander = crashed_lander.
Proof.
  split; [apply reach_init|].
  destruct (stopped_velocity_frozen sample_z sample_sin sample_cos sample_pi
              false) as [_ [H _]].
  apply (H Physics_new flat_pad (1 # 10) crashed_lander). right; reflexivity.
Defined.

Lemma Lander_Update_fuel_witness :
  reachable sample_z sample_sin sample_cos sample_pi false (start_game flat_pad) /\
  0 <= 1 # 10 /\
  mFuel (Lander_Update (1 # 10) (mLander (start_game flat_pad))) <=
    mFuel (mLander (start_game flat_pad)).
Proof.
  assert (Hr : reachable sample_z sample_sin sample_cos sample_pi false
                 (start_game flat_pad)) by apply reach_init.
  assert (Hdt : 0 <= 1 # 10) by (vm_compute; discriminate).
  split; [exact Hr|]. split; [exact Hdt|].
  exact (proj1 (Lander_Update_fuel sample_z sample_sin sample_cos sample_pi
                  false (start_game flat_pad) (1 # 10) Hr Hdt)).
Defined.

Lemma fuel_used_zero_witness :
  reachable sample_z sample_sin sample_cos sample_pi false (start_game open_sky) /\
  mFuelUsed (start_game open_sky) = 0.
Proof.
  assert (Hr : reachable sample_z sample_sin sample_cos sample_pi false
                 (start_game open_sky)) by apply reach_init.
  split; [exact Hr|].
  exact (proj1 (fuel_used_zero sample_z sample_sin sample_cos sample_pi false
                  (start_game open_sky) Hr)).
Defined.

Lemma Game_Update_score_witness :
  reachable sample_z sample_sin sample_cos sample_pi false (start_game flat_pad) /\
  mGameState (start_game flat_pad) = FLYING /\
  mGameState (Game_Update sample_z sample_sin sample_cos sample_pi (1 # 10)
                (start_game flat_pad)) = LANDED.
Proof.
  assert (Hr : reachable sample_z sample_sin sample_cos sample_pi false
                 (start_game flat_pad)) by apply reach_init.
  assert (HF : mGameState (start_game flat_pad) = FLYING) by reflexivity.
  assert (HL : IsLanded (mLander (Game_Update sample_z sample_sin sample_cos
                 sample_pi (1 # 10) (start_game flat_pad))) = true)
    by (vm_compute; reflexivity).
  split; [exact Hr|]. split; [exact HF|].
  exact (proj1 (proj1 (Game_Update_score sample_z sample_sin sample_cos
                         sample_pi false (start_game flat_pad) (1 # 10) Hr HF)
                  HL)).
Defined.

Lemma Game_Update_double_step_witness :
  mGameState (start_game open_sky) = FLYING /\
  stopped (mLander (start_game open_sky)) = false /\
  stopped (mLander (Game_Update sample_z sample_sin sample_cos sample_pi
                      (1 # 10) (start_game open_sky))) = false /\
  c1 (mPosition (mLander (Game_Update sample_z sample_sin sample_cos sample_pi
                            (1 # 10) (start_game open_sky)))) ==
  c1 (mPosition (mLander (start_game open_sky))) +
  2 * c1 (mVelocity (mLander (Game_Update sample_z sample_sin sample_cos
                                sample_pi (1 # 10) (start_game open_sky))))
    * (1 # 10).
Proof.
  assert (HF : mGameState (start_game open_sky) = FLYING) by reflexivity.
  assert (ES : stopped (mLander (start_game open_sky)) = false)
    by (vm_compute; reflexivity).
  assert (ES' : stopped (mLander (Game_Update sample_z sample_sin sample_cos
                  sample_pi (1 # 10) (start_game open_sky))) = false)
    by (vm_compute; reflexivity).
  split; [exact HF|]. split; [exact ES|]. split; [exact ES'|].
  exact (proj1 (proj2 (Game_Update_double_step sample_z sample_sin sample_cos
                         sample_pi (start_game open_sky) (1 # 10) HF ES ES'))).
Defined.

Lemma Game_Reset_state_witness :
  reachable sample_z sample_sin sample_cos sample_pi false (start_game open_sky) /\
  mPosition (mLander (Game_Reset sample_z flat_pad (start_game open_sky))) =
    mkV3 400 100 (sample_z 0).
Proof.
  assert (Hr : reachable sample_z sample_sin sample_cos sample_pi false
                 (start_game open_sky)) by apply reach_init.
  split; [exact Hr|].
  destruct (Game_Reset_state sample_z sample_sin sample_cos sample_pi false
              flat_pad (start_game open_sky))
    as (_ & _ & _ & _ & _ & _ & _ & _ & _ & _ & _ & _ & _ & Hlast).
  exact (proj1 (Hlast Hr)).
Defined.

Lemma time_scale_paths_witness :
  stopped Lander_new = false /\ mThrustActive Lander_new = false /\
  mAirDensity Physics_new <= 0 /\
  mVelocity (apply_forces sample_sin sample_cos sample_pi Physics_new
               ((1 # 10) * mTimeScale Physics_new) Lander_new) =
  mkV3 0 (0 + (162 # 100) * ((1 # 10) * 1) * (1031 # 100)) 0.
Proof.
  assert (ES : stopped Lander_new = false) by reflexivity.
  assert (HT : mThrustActive Lander_new = false) by reflexivity.
  assert (HD : mAirDensity Physics_new <= 0) by (vm_compute; discriminate).
  split; [exact ES|]. split; [exact HT|]. split; [exact HD|].
  exact (proj1 (proj2 (time_scale_paths sample_z sample_sin sample_cos
                         sample_pi Physics_new open_sky (1 # 10) Lander_new ES))
           HT HD).
Defined.

Lemma collision_snap_witness :
  stopped Lander_new = false /\ CheckCollision2D flat_pad Lander_new = Some 500 /\
  c1 (mPosition (snd (CheckCollisions2D sample_z flat_pad Lander_new))) =
    500 - mHeight Lander_new / 2.
Proof.
  assert (ES : stopped Lander_new = false) by reflexivity.
  assert (HC : CheckCollision2D flat_pad Lander_new = Some 500) by reflexivity.
  split; [exact ES|]. split; [exact HC|].
  exact (proj1 (proj1 (collision_snap sample_z flat_pad Lander_new 500 ES) HC)).
Defined.

Lemma ApplyThrust_clamps_witness :
  0 < mFuel Lander_new /\
  mThrustLevel (Lander_ApplyThrust 2 Lander_new) = std_max 0 (std_min 1 2).
Proof.
  assert (Hf : 0 < mFuel Lander_new) by reflexivity.
  split; [exact Hf|].
  exact (proj1 (proj2 (proj2 (ApplyThrust_clamps 2 Lander_new))) Hf).
Defined.

(** ** Witnesses of the further properties *)




Lemma reachable_physics_witness :
  reachable sample_z sample_sin sample_cos sample_pi false (start_game flat_pad) /\
  ApplyDrag (mPhysics (start_game flat_pad)) (1 # 10) crashed_lander = crashed_lander.
Proof.
  assert (Hr : reachable sample_z sample_sin sample_cos sample_pi false
                 (start_game flat_pad)) by apply reach_init.
  split; [exact Hr|].
  apply (reachable_physics sample_z sample_sin sample_cos sample_pi false
           (start_game flat_pad) Hr).
Defined.



Lemma reachable_not_ready_witness :
  reachable sample_z sample_sin sample_cos sample_pi false (start_game flat_pad) /\
  mGameState (start_game flat_pad) <> READY.
Proof.
  assert (Hr : reachable sample_z sample_sin sample_cos sample_pi false
                 (start_game flat_pad)) by apply reach_init.
  split; [exact Hr|].
  exact (proj1 (reachable_not_ready sample_z sample_sin sample_cos sample_pi
                  false (start_game flat_pad) Hr)).
Defined.

Lemma reachable_score_witness :
  reachable sample_z sample_sin sample_cos sample_pi false (start_game flat_pad) /\
  mScore (start_game flat_pad) <= 1000.
Proof.
  assert (Hr : reachable sample_z sample_sin sample_cos sample_pi false
                 (start_game flat_pad)) by apply reach_init.
  split; [exact Hr|].
  exact (proj2 (proj1 (reachable_score sample_z sample_sin sample_cos sample_pi
                         false (start_game flat_pad) Hr))).
Defined.

(** The thrust key held on a full tank. *)
Lemma ProcessInput_flying_thrust_witness :
  let inp := mkInput false true false false false false in
  let g := start_game open_sky in
  mGameState g = FLYING /\
  mThrustActive (mLander (Game_ProcessInput sample_z inp open_sky g)) = true.
Proof.
  cbv zeta.
  assert (HF : mGameState (start_game open_sky) = FLYING) by reflexivity.
  split; [exact HF|].
  destruct (ProcessInput_flying_thrust sample_z
              (mkInput false true false false false false) open_sky _ HF)
    as (_ & _ & _ & _ & _ & HT).
  exact (proj2 HT).
Defined.


(** Ticks 50 ms apart across the wrap-around of the 32-bit counter. *)
Lemma Run_deltaTime_frame_witness :
  (0 <= 2 ^ 32 - 10 < 2 ^ 32)%Z /\ (0 <= 50 <= 100)%Z /\
  ((2 ^ 32 - 10 + 50) mod 2 ^ 32 = 40)%Z /\
  Run_deltaTime 40 (2 ^ 32 - 10) == inject_Z 50 / 1000.
Proof.
  assert (H1 : (0 <= 2 ^ 32 - 10 < 2 ^ 32)%Z) by lia.
  assert (H2 : (0 <= 50 <= 100)%Z) by lia.
  split; [exact H1|]. split; [exact H2|]. split; [reflexivity|].
  exact (proj1 (Run_deltaTime_frame sample_z sample_sin sample_cos sample_pi
                  false (2 ^ 32 - 10) 50 H1 H2)).
Defined.

(** The telemetry of the first frame on a renderer that initialised. *)
Lemma RenderTelemetry_bars_witness :
  let rd := snd (Renderer2D.Initialize true true true 800 600
                   Renderer2D.Renderer2D_new) in
  reachable sample_z sample_sin sample_cos sample_pi false (start_game flat_pad) /\
  0 < Renderer2D.mPixelsPerMeter rd /\
  Renderer2D.mInitialized rd = true /\
  exists wa wv wf,
    Renderer2D.RenderTelemetry 255 rd (start_game flat_pad) =
      [FillRect 10 10 200 100 50 50 50 200; FillRect 20 20 wa 20 0 255 0 255;
       FillRect 20 50 wv 20 0 0 255 255; FillRect 20 80 wf 20 255 255 0 255].
Proof.
  cbv zeta.
  assert (Hr : reachable sample_z sample_sin sample_cos sample_pi false
                 (start_game flat_pad)) by apply reach_init.
  assert (Hp : 0 < Renderer2D.mPixelsPerMeter
                     (snd (Renderer2D.Initialize true true true 800 600
                             Renderer2D.Renderer2D_new))) by reflexivity.
  assert (HI : Renderer2D.mInitialized
                 (snd (Renderer2D.Initialize true true true 800 600
                         Renderer2D.Renderer2D_new)) = true) by reflexivity.
  split; [exact Hr|]. split; [exact Hp|]. split; [exact HI|].
  destruct (proj2 (RenderTelemetry_bars sample_z sample_sin sample_cos sample_pi
                     false 255 _ _ Hr Hp) HI) as (wa & wv & wf & E & _).
  exists wa, wv, wf. exact E.
Defined.

Lemma RenderLander_flame_witness :
  let rd := snd (Renderer2D.Initialize true true true 800 600
                   Renderer2D.Renderer2D_new) in
  reachable sample_z sample_sin sample_cos sample_pi false (start_game flat_pad) /\
  ~ (exists x y wd ht,
       In (FillRect x y wd ht 255 165 0 255)
          (Renderer2D.RenderLander 255 rd (mLander (start_game flat_pad)))).
Proof.
  cbv zeta.
  assert (Hr : reachable sample_z sample_sin sample_cos sample_pi false
                 (start_game flat_pad)) by apply reach_init.
  split; [exact Hr|].
  intros Hd.
  destruct (proj1 (proj1 (RenderLander_flame sample_z sample_sin sample_cos
                            sample_pi false 255 _ _ Hr)) Hd) as [_ HT].
  discriminate HT.
Defined.
